(** * HISPE PULSE: attendance cards and offline request router

    A shallow embedding of the two JavaScript sources of the repository:

    - the page script ([MarcacionApp]: [updateMarcationCards],
      [reassignCardEvents], [processQRCode], ...), in module [App];
    - the service worker [static/sw.js] (install, activate and fetch
      listeners and the five response strategies), in module [Worker].

    JavaScript values, exceptions and promise settlements are modelled in
    module [Js]. *)

From Stdlib Require Import ZArith String List Bool.
From stdpp Require Import base option list strings pretty gmap.

Open Scope string_scope.
Set Warnings "-register-all,-clear-no-such-hyp".

(** ** JavaScript values and completions *)
Module Js.

(** The values a JSON payload (the result of [response.json()]) can be, and
    [undefined].  Numbers are restricted to integers, objects are property
    lists (the first binding of a name is the one read). *)
Inductive JsValue : Type :=
| JUndefined
| JNull
| JBool (b : bool)
| JNumber (n : Z)
| JString (s : string)
| JArray (items : list JsValue)
| JObject (props : list (string * JsValue)).

Inductive JsError : Type :=
| TypeError (message : string)
| SyntaxError (message : string)
| Error (message : string).

(** How an evaluation ends: with a value, or with a thrown exception.  The
    same type describes how an awaited promise settles ([Normal] for a
    fulfilled promise, [Throw] for a rejected one), since [await] turns a
    rejection into a throw. *)
Inductive Completion (A : Type) : Type :=
| Normal (a : A)
| Throw (e : JsError).
Arguments Normal {A} a.
Arguments Throw {A} e.

#[global] Instance completion_ret : MRet Completion := fun A a => Normal a.
#[global] Instance completion_bind : MBind Completion := fun A B k c =>
  match c with
  | Normal a => k a
  | Throw e => Throw e
  end.
#[global] Instance completion_fmap : FMap Completion := fun A B f c =>
  match c with
  | Normal a => Normal (f a)
  | Throw e => Throw e
  end.

(** [try { body } catch (error) { handler }] *)
Definition tryCatch {A} (body : Completion A) (handler : JsError -> Completion A)
  : Completion A :=
  match body with
  | Normal a => Normal a
  | Throw e => handler e
  end.

Definition isNormal {A} (c : Completion A) : bool :=
  match c with Normal _ => true | Throw _ => false end.

(** ToBoolean *)
Definition truthy (v : JsValue) : bool :=
  match v with
  | JUndefined | JNull => false
  | JBool b => b
  | JNumber n => negb (Z.eqb n 0)
  | JString s => negb (String.eqb s "")
  | JArray _ | JObject _ => true
  end.

Fixpoint lookupProp (name : string) (props : list (string * JsValue)) : JsValue :=
  match props with
  | [] => JUndefined
  | (k, v) :: rest => if String.eqb k name then v else lookupProp name rest
  end.

(** [v.name], for the names the sources read (the fields of an attendance
    record, [message], [error]): reading a property of [null] or
    [undefined] throws a TypeError; a primitive or an array has none of
    these properties. *)
Definition getProp (v : JsValue) (name : string) : Completion JsValue :=
  match v with
  | JUndefined => Throw (TypeError "Cannot read properties of undefined")
  | JNull => Throw (TypeError "Cannot read properties of null")
  | JObject props => Normal (lookupProp name props)
  | JBool _ | JNumber _ | JString _ | JArray _ => Normal JUndefined
  end.

(** ToString, where the conversion completes: an array joins its items
    with commas, [null] and [undefined] items giving the empty text, and an
    object without a property named [toString] gives '[object Object]'.
    The function is total: on an object that has a property named
    [toString] (it is not callable, so that the conversion throws a
    TypeError) it gives the same text, and it prints every integer in
    decimal, as JavaScript does below 10^21.  [convertible], with the
    properties of the page script, tells the values on which the
    conversion completes. *)
Fixpoint toString (v : JsValue) : string :=
  match v with
  | JUndefined => "undefined"
  | JNull => "null"
  | JBool true => "true"
  | JBool false => "false"
  | JNumber n => pretty n
  | JString s => s
  | JArray items =>
      String.concat ","
        (map (fun item => match item with
                          | JUndefined | JNull => ""
                          | _ => toString item
                          end) items)
  | JObject _ => "[object Object]"
  end.

(** The text an element shows after [element.textContent = v]:
    [null] and [undefined] clear it, any other value is converted. *)
Definition textContent (v : JsValue) : string :=
  match v with
  | JUndefined | JNull => ""
  | _ => toString v
  end.

(** [null] and [undefined] are the only values whose properties cannot be
    read. *)
Definition nullish (v : JsValue) : bool :=
  match v with
  | JUndefined | JNull => true
  | _ => false
  end.

(** The value [v.name] of a value whose properties can be read. *)
Definition prop (v : JsValue) (name : string) : JsValue :=
  match getProp v name with
  | Normal x => x
  | Throw _ => JUndefined
  end.

End Js.

Export Js.


(** ** The page script *)
Module App.

(** A [.marcation-card] element: its [data-type], its class list and the
    text of its [.card-time] and [.card-status] children, the colour of
    the latter, and what [reassignCardEvents] attaches to it. *)
Record Card : Type := mkCard {
  dataType : string;
  classList : list string;
  cardTime : string;
  cardStatus : string;
  statusColor : string;
  onClick : bool;
  cursor : string
}.

Definition removeClass (name : string) (classes : list string) : list string :=
  filter (fun c => c <> name) classes.

Definition addClass (name : string) (classes : list string) : list string :=
  if bool_decide (name ∈ classes) then classes else classes ++ [name].

Definition contains (name : string) (classes : list string) : bool :=
  bool_decide (name ∈ classes).

(** [card.classList.remove('available', 'completed', 'disabled')] *)
Definition resetClasses (card : Card) : Card :=
  mkCard (dataType card)
    (removeClass "disabled" (removeClass "completed" (removeClass "available" (classList card))))
    (cardTime card) (cardStatus card) (statusColor card) (onClick card) (cursor card).

(** The four assignments every branch of the switch performs. *)
Definition paint (cls time status color : string) (card : Card) : Card :=
  mkCard (dataType card) (addClass cls (classList card)) time status color
    (onClick card) (cursor card).

Definition completed (time : JsValue) : Card -> Card :=
  paint "completed" (textContent time) "✅ Completado" "var(--color-success)".
Definition available : Card -> Card :=
  paint "available" "" "Toca para marcar" "var(--text-muted)".
Definition disabled (status : string) : Card -> Card :=
  paint "disabled" "" status "var(--text-muted)".

(** The body of the [cards.forEach] callback of [updateMarcationCards]. *)
Definition updateCard (attendance : JsValue) (card0 : Card) : Completion Card :=
  let card := resetClasses card0 in
  let type := dataType card in
  if String.eqb type "Ingreso" then
    horaentrada ← getProp attendance "horaentrada";
    if truthy horaentrada then Normal (completed horaentrada card)
    else Normal (available card)
  else if String.eqb type "Inicio de Refrigerio" then
    inicio ← getProp attendance "horaRefrigerioInicio";
    if truthy inicio then Normal (completed inicio card)
    else
      horaentrada ← getProp attendance "horaentrada";
      canMark ← (if truthy horaentrada
                  then horasalida ← getProp attendance "horasalida";
                       Normal (negb (truthy horasalida))
                  else Normal false);
      if (canMark : bool) then Normal (available card)
      else
        horaentrada ← getProp attendance "horaentrada";
        Normal (disabled (if truthy horaentrada then "No disponible"
                          else "Requiere ingreso") card)
  else if String.eqb type "Salida de Refrigerio" then
    fin ← getProp attendance "horaRefrigerioFin";
    if truthy fin then Normal (completed fin card)
    else
      inicio ← getProp attendance "horaRefrigerioInicio";
      canMark ← (if truthy inicio
                  then horasalida ← getProp attendance "horasalida";
                       Normal (negb (truthy horasalida))
                  else Normal false);
      if (canMark : bool) then Normal (available card)
      else
        horaentrada ← getProp attendance "horaentrada";
        if negb (truthy horaentrada) then Normal (disabled "Requiere ingreso" card)
        else
          inicio ← getProp attendance "horaRefrigerioInicio";
          if negb (truthy inicio)
          then Normal (disabled "Requiere inicio refrigerio" card)
          else Normal (disabled "No disponible" card)
  else if String.eqb type "Salida" then
    horasalida ← getProp attendance "horasalida";
    if truthy horasalida then Normal (completed horasalida card)
    else
      horaentrada ← getProp attendance "horaentrada";
      canMark ← (if truthy horaentrada
                  then inicio ← getProp attendance "horaRefrigerioInicio";
                       if negb (truthy inicio) then Normal true
                       else fin ← getProp attendance "horaRefrigerioFin";
                            Normal (truthy fin)
                  else Normal false);
      if (canMark : bool) then Normal (available card)
      else
        horaentrada ← getProp attendance "horaentrada";
        if negb (truthy horaentrada) then Normal (disabled "Requiere ingreso" card)
        else
          inicio ← getProp attendance "horaRefrigerioInicio";
          stillOnBreak ← (if truthy inicio
                           then fin ← getProp attendance "horaRefrigerioFin";
                                Normal (negb (truthy fin))
                           else Normal false);
          if (stillOnBreak : bool)
          then Normal (disabled "Termine refrigerio primero" card)
          else Normal (disabled "No disponible" card)
  else Normal card.

(** [cards.forEach(callback)]: the cards are updated in document order; a
    throw leaves the cards already visited updated and abandons the rest.
    ([updateCard] throws only at its first property read, when the classes
    of the card have been reset and nothing else has been assigned.) *)
Fixpoint forEachCard (callback : Card -> Completion Card) (cards : list Card)
  : list Card * Completion unit :=
  match cards with
  | [] => ([], Normal tt)
  | card :: rest =>
      match callback card with
      | Normal card' =>
          let (rest', c) := forEachCard callback rest in (card' :: rest', c)
      | Throw e => (resetClasses card :: rest, Throw e)
      end
  end.

(** The callback of [reassignCardEvents]: the card is replaced by a clone
    (which carries no listener), and the click listener is attached when
    the class list contains 'available'. *)
Definition reassignCard (card : Card) : Card :=
  let newCard := mkCard (dataType card) (classList card) (cardTime card)
                   (cardStatus card) (statusColor card) false (cursor card) in
  if contains "available" (classList newCard) then
    mkCard (dataType newCard) (classList newCard) (cardTime newCard)
      (cardStatus newCard) (statusColor newCard) true "pointer"
  else
    mkCard (dataType newCard) (classList newCard) (cardTime newCard)
      (cardStatus newCard) (statusColor newCard) false
      (if contains "completed" (classList newCard) then "default" else "not-allowed").

Definition reassignCardEvents (cards : list Card) : list Card :=
  map reassignCard cards.

Definition updateMarcationCards (attendance : JsValue) (cards : list Card)
  : list Card * Completion unit :=
  let (cards', c) := forEachCard (updateCard attendance) cards in
  match c with
  | Normal _ => (reassignCardEvents cards', Normal tt)
  | Throw e => (cards', Throw e)
  end.

(** *** Eligibility, read back from a card

    The page keeps no eligibility value of its own: the outcome of the
    evaluation is the class and the status text [updateCard] gives a card.
    [eligibility] reads them back in the vocabulary of the specification.
    'No disponible' is the one text the source has for the remaining
    blocked cases. *)
Inductive PunchType : Type := Entry | BreakStart | BreakEnd | Exit.

Definition cardType (t : PunchType) : string :=
  match t with
  | Entry => "Ingreso"
  | BreakStart => "Inicio de Refrigerio"
  | BreakEnd => "Salida de Refrigerio"
  | Exit => "Salida"
  end.

Inductive Reason : Type := NoEntry | NoBreakStart | BreakInProgress | Unavailable.

Inductive EligibilityResult : Type :=
| Completed (time : string)
| Available
| Blocked (reason : Reason).

Definition reasonOf (status : string) : Reason :=
  if String.eqb status "Requiere ingreso" then NoEntry
  else if String.eqb status "Requiere inicio refrigerio" then NoBreakStart
  else if String.eqb status "Termine refrigerio primero" then BreakInProgress
  else Unavailable.

Definition eligibility (card : Card) : option EligibilityResult :=
  if contains "completed" (classList card) then Some (Completed (cardTime card))
  else if contains "available" (classList card) then Some Available
  else if contains "disabled" (classList card)
       then Some (Blocked (reasonOf (cardStatus card)))
       else None.

(** The evaluation of one punch type: the card of that type after the
    [forEach] callback of [updateMarcationCards] ran on it. *)
Definition evaluate (attendance : JsValue) (card : Card)
  : Completion (option EligibilityResult) :=
  eligibility <$> updateCard attendance card.

(** The four cards of the page, as the markup declares them (one per
    case of the switch), before any update. *)
Definition freshCard (type : string) : Card :=
  mkCard type ["marcation-card"] "" "" "" false "".

Definition dashboard : list Card :=
  map (fun t => freshCard (cardType t)) [Entry; BreakStart; BreakEnd; Exit].

(** *** The application object *)

(** What the page does to the outside: network requests and what it shows. *)
Inductive Effect : Type :=
| Fetch (method url : string) (body : JsValue)
| ShowMessage (message type : string)
| ShowLoading (show : bool)
| StartQRScan
| ClearQrInput
| CelebrateSuccess.

(** A response as the page uses it: [response.ok] and [response.json()]. *)
Record Response : Type := mkResponse {
  ok : bool;
  json : Completion JsValue
}.

Record MarcacionApp : Type := mkApp {
  currentMarcationType : option string;   (* [None] is [null] *)
  isProcessing : bool;
  connectionStatus : bool;
  cards : list Card;
  effects : list Effect                   (* oldest first *)
}.

Definition emit (e : Effect) (app : MarcacionApp) : MarcacionApp :=
  mkApp (currentMarcationType app) (isProcessing app) (connectionStatus app)
    (cards app) (effects app ++ [e]).

Definition showMessage (message type : string) : MarcacionApp -> MarcacionApp :=
  emit (ShowMessage message type).

Definition showLoading (show : bool) : MarcacionApp -> MarcacionApp :=
  emit (ShowLoading show).

Definition setCards (cs : list Card) (app : MarcacionApp) : MarcacionApp :=
  mkApp (currentMarcationType app) (isProcessing app) (connectionStatus app)
    cs (effects app).

Definition setCurrentMarcationType (t : option string) (app : MarcacionApp)
  : MarcacionApp :=
  mkApp t (isProcessing app) (connectionStatus app) (cards app) (effects app).

Definition setIsProcessing (b : bool) (app : MarcacionApp) : MarcacionApp :=
  mkApp (currentMarcationType app) b (connectionStatus app) (cards app) (effects app).

(** [loadTodayAttendance], given how [fetch('/api/attendance/today')]
    settles.  Every failure (a rejected fetch, a response that is not ok, a
    body that is not JSON, an exception out of [updateMarcationCards]) is
    caught and reported with the same message. *)
Definition loadTodayAttendance (today : Completion Response) (app0 : MarcacionApp)
  : MarcacionApp :=
  let app := emit (Fetch "GET" "/api/attendance/today" JUndefined) app0 in
  let failed := showMessage "Error cargando marcaciones del día" "error" in
  match today with
  | Throw _ => failed app
  | Normal response =>
      if negb (ok response) then failed app
      else
        match json response with
        | Throw _ => failed app
        | Normal attendance =>
            let (cards', c) := updateMarcationCards attendance (cards app) in
            match c with
            | Normal _ => setCards cards' app
            | Throw _ => failed (setCards cards' app)
            end
        end
  end.

(** [startQRScan], as far as the application state goes. *)
Definition startQRScan (app : MarcacionApp) : MarcacionApp :=
  if isProcessing app then app else emit StartQRScan app.

(** A click on the [i]-th card: the listener exists only on a card that
    [reassignCardEvents] found available. *)
Definition clickCard (i : nat) (app : MarcacionApp) : MarcacionApp :=
  match cards app !! i with
  | Some newCard =>
      if onClick newCard then
        if negb (isProcessing app) then
          startQRScan (setCurrentMarcationType (Some (dataType newCard)) app)
        else app
      else app
  | None => app
  end.

(** [!this.currentMarcationType] *)
Definition noTypeSelected (t : option string) : bool :=
  match t with
  | None => true
  | Some s => String.eqb s ""
  end.

(** The body of the [try] block of [processQRCode] after the request was
    sent: [post] is how the POST settles and [today] how the reload of the
    attendance does. *)
Definition afterPost (post today : Completion Response) (app : MarcacionApp)
  : MarcacionApp * Completion unit :=
  match post with
  | Throw e => (app, Throw e)
  | Normal response =>
      match json response with
      | Throw e => (app, Throw e)
      | Normal result =>
          if ok response then
            match getProp result "message" with
            | Throw e => (app, Throw e)
            | Normal message =>
                let app := showMessage (textContent message) "success" app in
                let app := loadTodayAttendance today app in
                let app := emit ClearQrInput app in
                (emit CelebrateSuccess app, Normal tt)
            end
          else
            match getProp result "error" with
            | Throw e => (app, Throw e)
            | Normal error =>
                (showMessage (if truthy error then textContent error
                              else "Error procesando marcación") "error" app,
                 Normal tt)
            end
      end
  end.

Definition processQRCode (post today : Completion Response) (qrCode : string)
    (app0 : MarcacionApp) : MarcacionApp :=
  if isProcessing app0 || noTypeSelected (currentMarcationType app0) then
    showMessage "Selecciona un tipo de marcación primero" "error" app0
  else
    let app := setIsProcessing true app0 in
    let app := showLoading true app in
    let app := showMessage "Procesando marcación..." "info" app in
    let app := emit (Fetch "POST" "/api/attendance/mark"
                       (JObject [("qrCode", JString qrCode);
                                 ("marcationType",
                                  JString (default "" (currentMarcationType app)))]))
                 app in
    let (app, c) := afterPost post today app in
    let app :=
      match c with
      | Normal _ => app
      | Throw _ =>
          if negb (connectionStatus app)
          then showMessage "Sin conexión al servidor" "error" app
          else showMessage "Error de comunicación con el servidor" "error" app
      end in
    let app := setIsProcessing false app in
    let app := showLoading false app in
    setCurrentMarcationType None app.

(** The network requests among the effects of the page. *)
Definition isSubmission (e : Effect) : bool :=
  match e with
  | Fetch method url _ => String.eqb method "POST" && String.eqb url "/api/attendance/mark"
  | _ => false
  end.

Definition submissions (app : MarcacionApp) : list Effect :=
  List.filter isSubmission (effects app).

End App.

(** ** The service worker *)
Module Worker.

Definition CACHE_NAME : string := "hispe-pulse-v1.0.0".
Definition OFFLINE_CACHE : string := "hispe-offline-v1.0".

Definition ESSENTIAL_FILES : list string :=
  [ "/";
    "/dashboard";
    "/static/css/style.css";
    "/static/js/app.js";
    "/manifest.json";
    "https://unpkg.com/html5-qrcode/minified/html5-qrcode.min.js" ].

Definition API_CACHE_PATTERNS : list string :=
  [ "/api/user"; "/api/attendance/today"; "/api/health" ].

(** *** Requests and responses *)

(** The content of a body, by what reading it as JSON gives:
    [JsonBody v] is the text [JSON.stringify(v)], read back as [v];
    [OtherBody text] is a text that [JSON.parse] rejects. *)
Inductive Body : Type :=
| NoBody
| JsonBody (v : JsValue)
| OtherBody (text : string).

Record Request : Type := mkRequest {
  url : string;                 (* absolute *)
  method : string;
  mode : string;
  accept : option string;       (* [headers.get('accept')], [None] for [null] *)
  body : Body;
  bodyUsed : bool
}.

Record Response : Type := mkResponse {
  status : Z;
  headers : list (string * string);
  payload : Body
}.

(** [response.ok] *)
Definition ok (response : Response) : bool :=
  (200 <=? status response)%Z && (status response <=? 299)%Z.

(** [new URL(request.url)], as far as [origin] and [pathname] go, for
    the absolute URLs ([scheme://host/path?query]) requests carry. *)
Record URL : Type := mkURL { origin : string; pathname : string }.

Definition upTo (sep s : string) : string :=
  match index 0 sep s with
  | Some i => substring 0 i s
  | None => s
  end.

Definition parseURL (u : string) : URL :=
  match index 0 "://" u with
  | None => mkURL "null" (upTo "?" u)
  | Some i =>
      match index (i + 3) "/" u with
      | None => mkURL (upTo "?" u) "/"
      | Some j =>
          mkURL (substring 0 j u)
                (upTo "?" (substring j (String.length u - j) u))
      end
  end.

(** [s.startsWith(p)] and [s.includes(p)] *)
Definition startsWith (s p : string) : bool := String.prefix p s.
Definition includes (s p : string) : bool :=
  match index 0 p s with Some _ => true | None => false end.

(** [request.clone()] throws on a request whose body has been used; so
    does reading the body.  [request.json()] rejects when the body is not
    JSON (an absent body reads as the empty text, which is not). *)
Definition clone (request : Request) : Completion Request :=
  if bodyUsed request then Throw (TypeError "Request body is already used")
  else Normal request.

Definition json (request : Request) : Completion JsValue :=
  if bodyUsed request then Throw (TypeError "body stream already read")
  else match body request with
       | JsonBody v => Normal v
       | NoBody => Throw (SyntaxError "Unexpected end of JSON input")
       | OtherBody _ => Throw (SyntaxError "Unexpected token")
       end.

(** *** The cache storage

    [caches]: the named caches in creation order (the order of
    [caches.keys()], which [caches.match] follows), each a map from the
    URL of a request to the response stored for it. *)
Abbreviation CacheStorage := (list (string * gmap string Response)).

Definition cachesKeys (caches : CacheStorage) : list string := map fst caches.

Definition cachesHas (name : string) (caches : CacheStorage) : bool :=
  bool_decide (name ∈ cachesKeys caches).

(** [caches.open(name)]: creates the cache when there is none. *)
Definition cachesOpen (name : string) (caches : CacheStorage) : CacheStorage :=
  if cachesHas name caches then caches else caches ++ [(name, ∅)].

Definition cacheOf (name : string) (caches : CacheStorage)
  : option (gmap string Response) :=
  snd <$> List.find (fun entry => String.eqb (fst entry) name) caches.

Fixpoint putIn (name key : string) (response : Response) (caches : CacheStorage)
  : CacheStorage :=
  match caches with
  | [] => []
  | (n, cache) :: rest =>
      if String.eqb n name then (n, <[key := response]> cache) :: rest
      else (n, cache) :: putIn name key response rest
  end.

(** [caches.open(name).then(cache => cache.put(key, response))] *)
Definition cachePut (name key : string) (response : Response)
    (caches : CacheStorage) : CacheStorage :=
  putIn name key response (cachesOpen name caches).

(** [caches.match(key)]: the entry of the first cache that has one. *)
Fixpoint cachesMatch (key : string) (caches : CacheStorage) : option Response :=
  match caches with
  | [] => None
  | (_, cache) :: rest =>
      match cache !! key with
      | Some response => Some response
      | None => cachesMatch key rest
      end
  end.

(** [caches.delete(name)] *)
Definition cachesDelete (name : string) (caches : CacheStorage) : CacheStorage :=
  List.filter (fun entry => negb (String.eqb (fst entry) name)) caches.

Section Worker.

(** [location.origin] of the worker, and the markup [getOfflineHTML()]
    returns (a constant text of the source, not repeated here). *)
Variable location_origin : string.
Variable getOfflineHTML : string.

(** The network: how [fetch(request)] settles. *)
Variable fetch : Request -> Completion Response.

(** Whether [fetch(request)] leaves the body of [request] used.  Under
    the Fetch standard it does, for a request that has a body; the
    parameter keeps the statements below independent of it. *)
Variable fetchUsesBody : bool.

Definition afterFetch (request : Request) : Request :=
  match body request with
  | NoBody => request
  | _ => mkRequest (url request) (method request) (mode request)
           (accept request) (body request) (bodyUsed request || fetchUsesBody)
  end.

(** A URL given as a string to the cache API is resolved against the
    location of the worker. *)
Definition resolve (u : string) : string :=
  if startsWith u "/" then location_origin ++ u else u.

(** [new Request(u)] *)
Definition requestFor (u : string) : Request :=
  mkRequest (resolve u) "GET" "cors" None NoBody false.

(** *** install *)

Definition offlinePage : Response :=
  mkResponse 200 [("Content-Type", "text/html")] (OtherBody getOfflineHTML).

(** What [cache.addAll] collects: every file is fetched, and a failed
    fetch or a response that is not ok rejects the whole. *)
Fixpoint fetchAll (files : list string) : Completion (list (string * Response)) :=
  match files with
  | [] => Normal []
  | file :: rest =>
      response ← fetch (requestFor file);
      if ok response then
        responses ← fetchAll rest;
        Normal ((resolve file, response) :: responses)
      else Throw (TypeError "Request failed")
  end.

(** [caches.open(name).then(cache => cache.addAll(files))]: nothing is
    stored unless every file was fetched. *)
Definition addAll (name : string) (files : list string) (caches : CacheStorage)
  : Completion unit * CacheStorage :=
  let caches := cachesOpen name caches in
  match fetchAll files with
  | Normal entries =>
      (Normal tt,
       foldl (fun cs entry => putIn name (fst entry) (snd entry) cs) caches entries)
  | Throw e => (Throw e, caches)
  end.

(** The install listener: the promise given to [event.waitUntil]. *)
Definition install (caches : CacheStorage) : Completion unit * CacheStorage :=
  let (essential, caches) := addAll CACHE_NAME ESSENTIAL_FILES caches in
  let caches := cachePut OFFLINE_CACHE (resolve "/offline") offlinePage caches in
  (essential, caches).

(** *** activate *)

Definition activate (caches : CacheStorage) : CacheStorage :=
  foldl (fun cs cacheName =>
           if negb (String.eqb cacheName CACHE_NAME)
              && negb (String.eqb cacheName OFFLINE_CACHE)
           then cachesDelete cacheName cs
           else cs)
        caches (cachesKeys caches).

(** *** The strategies

    Each takes the request and the cache storage and gives what its
    promise settles to (a response, or [None] for [undefined]) and the
    cache storage it leaves. *)
Definition Handler : Type :=
  Request -> CacheStorage -> Completion (option Response) * CacheStorage.

Definition cacheFirst : Handler := fun request caches =>
  match cachesMatch (url request) caches with
  | Some cachedResponse => (Normal (Some cachedResponse), caches)
  | None =>
      match fetch request with
      | Normal networkResponse =>
          (Normal (Some networkResponse),
           if ok networkResponse
           then cachePut CACHE_NAME (url request) networkResponse caches
           else caches)
      | Throw error =>
          (Normal (Some (mkResponse 503 [] (OtherBody "Recurso no disponible offline"))),
           caches)
      end
  end.

Definition networkFirstWithCacheFallback : Handler := fun request caches =>
  let attempt :=
    networkResponse ← fetch request;
    if ok networkResponse then Normal networkResponse
    else Throw (Error "Network response not ok") in
  match attempt with
  | Normal networkResponse =>
      (Normal (Some networkResponse),
       cachePut CACHE_NAME (url request) networkResponse caches)
  | Throw error =>
      match cachesMatch (url request) caches with
      | Some cachedResponse => (Normal (Some cachedResponse), caches)
      | None => (Normal (cachesMatch (resolve "/offline") caches), caches)
      end
  end.

Definition cacheFirstWithNetworkFallback : Handler := fun request caches =>
  match cachesMatch (url request) caches with
  | Some cachedResponse =>
      (* the refresh in the background; its failure is swallowed *)
      (Normal (Some cachedResponse),
       match fetch request with
       | Normal response =>
           if ok response then cachePut CACHE_NAME (url request) response caches
           else caches
       | Throw _ => caches
       end)
  | None =>
      match fetch request with
      | Normal networkResponse =>
          (Normal (Some networkResponse),
           if ok networkResponse
           then cachePut CACHE_NAME (url request) networkResponse caches
           else caches)
      | Throw error =>
          (Normal (Some (mkResponse 503 [("Content-Type", "application/json")]
                           (JsonBody (JObject
                              [("error", JString "Funcionalidad no disponible offline")])))),
           caches)
      end
  end.

Definition networkOnlyWithFallback : Handler := fun request caches =>
  match fetch request with
  | Normal response => (Normal (Some response), caches)
  | Throw error =>
      (Normal (Some (mkResponse 503 [("Content-Type", "application/json")]
                       (JsonBody (JObject
                          [("error", JString "Sin conexión. La marcación no se puede procesar offline.");
                           ("offline", JBool true)])))),
       caches)
  end.

(** The response [handleOfflineMarking] builds in its [catch] block. *)
Definition pendingResponse : Response :=
  mkResponse 202 [("Content-Type", "application/json")]
    (JsonBody (JObject
       [("success", JBool true);
        ("message", JString "📱 Marcación guardada. Se enviará cuando haya conexión.");
        ("offline", JBool true);
        ("pending", JBool true)])).

(** The [catch] block of [handleOfflineMarking]; it runs after
    [fetch(request)] was called. *)
Definition offlineFallback (request : Request) : Completion (option Response) :=
  requestClone ← clone (afterFetch request);
  body ← json requestClone;
  Normal (Some pendingResponse).

Definition handleOfflineMarking : Handler := fun request caches =>
  let attempt :=
    response ← fetch request;
    if ok response then Normal (Some response)
    else Throw (Error "Network failed") in
  (tryCatch attempt (fun error => offlineFallback request), caches).

(** *** The fetch listener *)

Definition isNavigationRequest (request : Request) : Completion bool :=
  if String.eqb (mode request) "navigate" then Normal true
  else if String.eqb (method request) "GET" then
    match accept request with
    | None => Throw (TypeError "Cannot read properties of null (reading 'includes')")
    | Some value => Normal (includes value "text/html")
    end
  else Normal false.

Inductive Strategy : Type :=
| NetworkOnlyWithFallback
| CacheFirstWithNetworkFallback
| NetworkFirstWithCacheFallback
| CacheFirst
| HandleOfflineMarking.

(** The listener up to its call of [event.respondWith]: the strategy it
    chooses, [None] when it returns without responding. *)
Definition fetchListener (request : Request) : Completion (option Strategy) :=
  let url := parseURL (url request) in
  if negb (String.eqb (origin url) location_origin) then Normal None
  else if String.eqb (method request) "GET" then
    if startsWith (pathname url) "/api/attendance/mark" then
      Normal (Some NetworkOnlyWithFallback)
    else if existsb (fun pattern => startsWith (pathname url) pattern) API_CACHE_PATTERNS
    then Normal (Some CacheFirstWithNetworkFallback)
    else
      navigation ← isNavigationRequest request;
      if (navigation : bool) then Normal (Some NetworkFirstWithCacheFallback)
      else Normal (Some CacheFirst)
  else if String.eqb (method request) "POST"
          && startsWith (pathname url) "/api/attendance/mark"
  then Normal (Some HandleOfflineMarking)
  else Normal None.

Definition handler (s : Strategy) : Handler :=
  match s with
  | NetworkOnlyWithFallback => networkOnlyWithFallback
  | CacheFirstWithNetworkFallback => cacheFirstWithNetworkFallback
  | NetworkFirstWithCacheFallback => networkFirstWithCacheFallback
  | CacheFirst => cacheFirst
  | HandleOfflineMarking => handleOfflineMarking
  end.

(** How a request is answered. *)
Inductive Answer : Type :=
| PassedThrough (settled : Completion Response)
    (* no [respondWith]: the browser performs the request itself *)
| Responded (settled : Completion (option Response)).
    (* [respondWith(promise)]: what the promise settles to *)

(** A request of a page the worker controls: the answer and the cache
    storage afterwards.  A listener that throws has not responded. *)
Definition dispatchFetch (request : Request) (caches : CacheStorage)
  : Answer * CacheStorage :=
  match fetchListener request with
  | Normal (Some s) =>
      let (settled, caches') := handler s request caches in
      (Responded settled, caches')
  | Normal None | Throw _ => (PassedThrough (fetch request), caches)
  end.

(** What the caller of [fetch] in the page gets: a promise given to
    [respondWith] that rejects, or that resolves to something that is
    not a response, is a network error. *)
Definition received (a : Answer) : Completion Response :=
  match a with
  | PassedThrough settled => settled
  | Responded (Normal (Some response)) => Normal response
  | Responded (Normal None) => Throw (TypeError "Failed to fetch")
  | Responded (Throw _) => Throw (TypeError "Failed to fetch")
  end.

End Worker.

End Worker.

(** * Properties of the page script *)
Section AppProperties.

Import App.
Local Open Scope list_scope.

(** ** Reading an attendance record *)

(** A field of the record is set when its value is truthy. *)
Definition isSet (attendance : JsValue) (name : string) : bool :=
  truthy (prop attendance name).

Lemma getProp_record attendance name :
  nullish attendance = false ->
  getProp attendance name = Normal (prop attendance name).
Proof.
  unfold prop. destruct attendance; simpl; intros H; try discriminate; reflexivity.
Qed.

Lemma getProp_nullish attendance name :
  nullish attendance = true ->
  exists message, getProp attendance name = Throw (TypeError message).
Proof.
  destruct attendance; simpl; intros H; try discriminate; eauto.
Qed.

(** ** Class lists *)

Lemma contains_addClass_same cls classes :
  contains cls (addClass cls classes) = true.
Proof.
  unfold contains, addClass. apply bool_decide_eq_true_2.
  case_bool_decide; [assumption | apply elem_of_app; right; constructor].
Qed.

Lemma contains_addClass_other cls other classes :
  cls <> other ->
  contains cls (addClass other classes) = contains cls classes.
Proof.
  intros Hne. unfold contains, addClass.
  destruct (bool_decide (other ∈ classes)); [reflexivity |].
  apply bool_decide_ext. rewrite elem_of_app, list_elem_of_singleton. tauto.
Qed.

Lemma contains_removeClass_same cls classes :
  contains cls (removeClass cls classes) = false.
Proof.
  unfold contains, removeClass. apply bool_decide_eq_false_2.
  rewrite list_elem_of_filter. tauto.
Qed.

Lemma contains_removeClass_other cls other classes :
  cls <> other ->
  contains cls (removeClass other classes) = contains cls classes.
Proof.
  intros Hne. unfold contains, removeClass.
  apply bool_decide_ext. rewrite list_elem_of_filter. tauto.
Qed.

Lemma resetClasses_contains card :
  contains "completed" (classList (resetClasses card)) = false /\
  contains "available" (classList (resetClasses card)) = false /\
  contains "disabled" (classList (resetClasses card)) = false.
Proof.
  unfold resetClasses; simpl. repeat split.
  - rewrite contains_removeClass_other by discriminate.
    apply contains_removeClass_same.
  - rewrite !contains_removeClass_other by discriminate.
    apply contains_removeClass_same.
  - apply contains_removeClass_same.
Qed.

(** ** What a painted card reads as *)

Lemma eligibility_completed time card :
  eligibility (completed time (resetClasses card))
  = Some (Completed (textContent time)).
Proof.
  generalize (resetClasses card) as c. intros c.
  unfold eligibility, completed, paint; simpl.
  rewrite contains_addClass_same. reflexivity.
Qed.

Lemma eligibility_available card :
  eligibility (available (resetClasses card)) = Some Available.
Proof.
  destruct (resetClasses_contains card) as (Hc & Ha & Hd).
  revert Hc Ha Hd. generalize (resetClasses card) as c. intros c Hc Ha Hd.
  unfold eligibility, available, paint; simpl.
  rewrite contains_addClass_other by discriminate.
  rewrite Hc, contains_addClass_same. reflexivity.
Qed.

Lemma eligibility_disabled status card :
  eligibility (disabled status (resetClasses card))
  = Some (Blocked (reasonOf status)).
Proof.
  destruct (resetClasses_contains card) as (Hc & Ha & Hd).
  revert Hc Ha Hd. generalize (resetClasses card) as c. intros c Hc Ha Hd.
  unfold eligibility, disabled, paint; simpl.
  rewrite !contains_addClass_other by discriminate.
  rewrite Hc, Ha, contains_addClass_same. reflexivity.
Qed.

Lemma eligibility_reset card :
  eligibility (resetClasses card) = None.
Proof.
  destruct (resetClasses_contains card) as (Hc & Ha & Hd).
  unfold eligibility. rewrite Hc, Ha, Hd. reflexivity.
Qed.

Lemma dataType_resetClasses card : dataType (resetClasses card) = dataType card.
Proof. reflexivity. Qed.

(** ** The evaluation on a record

    On a value whose properties can be read, the evaluation of a card of
    punch type [t] is the following function of the four fields. *)
Definition verdict (attendance : JsValue) (t : PunchType) : EligibilityResult :=
  let entry := isSet attendance "horaentrada" in
  let breakStart := isSet attendance "horaRefrigerioInicio" in
  let breakEnd := isSet attendance "horaRefrigerioFin" in
  let exit := isSet attendance "horasalida" in
  match t with
  | Entry =>
      if entry then Completed (textContent (prop attendance "horaentrada"))
      else Available
  | BreakStart =>
      if breakStart then Completed (textContent (prop attendance "horaRefrigerioInicio"))
      else if entry && negb exit then Available
      else Blocked (if entry then Unavailable else NoEntry)
  | BreakEnd =>
      if breakEnd then Completed (textContent (prop attendance "horaRefrigerioFin"))
      else if breakStart && negb exit then Available
      else Blocked (if negb entry then NoEntry
                    else if negb breakStart then NoBreakStart
                    else Unavailable)
  | Exit =>
      if exit then Completed (textContent (prop attendance "horasalida"))
      else if entry && (negb breakStart || breakEnd) then Available
      else Blocked (if negb entry then NoEntry
                    else if breakStart && negb breakEnd then BreakInProgress
                    else Unavailable)
  end.

Ltac card_cases :=
  repeat match goal with
    | |- context [truthy ?v] => destruct (truthy v); simpl
    end;
  rewrite ?eligibility_completed, ?eligibility_available, ?eligibility_disabled;
  try reflexivity.

Lemma evaluate_record attendance t card :
  nullish attendance = false ->
  dataType card = cardType t ->
  evaluate attendance card = Normal (Some (verdict attendance t)).
Proof.
  intros Hrec Htype. unfold evaluate, updateCard.
  rewrite dataType_resetClasses, Htype.
  rewrite !(getProp_record _ _ Hrec).
  unfold verdict, isSet.
  destruct t; simpl; card_cases.
Qed.

(** On a value whose properties can be read, no card makes the callback
    throw. *)
Lemma updateCard_record attendance card :
  nullish attendance = false ->
  exists card', updateCard attendance card = Normal card'.
Proof.
  intros Hrec. unfold updateCard.
  rewrite !(getProp_record _ _ Hrec). simpl.
  repeat match goal with
    | |- context [if ?b then _ else _] => destruct b; simpl
    end; eauto.
Qed.

Lemma updateCard_nullish attendance t card :
  nullish attendance = true ->
  dataType card = cardType t ->
  exists message, updateCard attendance card = Throw (TypeError message).
Proof.
  intros Hnull Htype. unfold updateCard.
  rewrite dataType_resetClasses, Htype.
  destruct attendance; try discriminate Hnull; destruct t; simpl; eauto.
Qed.

Lemma forEachCard_total callback cards :
  (forall card, exists card', callback card = Normal card') ->
  snd (forEachCard callback cards) = Normal tt.
Proof.
  intros Htotal. induction cards as [|card rest IH]; simpl; [reflexivity |].
  destruct (Htotal card) as [card' ->].
  destruct (forEachCard callback rest); simpl in *. assumption.
Qed.

Lemma forEachCard_normal callback cards cards' :
  forEachCard callback cards = (cards', Normal tt) ->
  Forall2 (fun card card' => callback card = Normal card') cards cards'.
Proof.
  revert cards'. induction cards as [|card rest IH]; simpl; intros cards' H.
  - injection H as <-. constructor.
  - destruct (callback card) as [card1|e] eqn:Hcard; [| discriminate H].
    destruct (forEachCard callback rest) as [rest' c] eqn:Hrest.
    injection H as <- ->. constructor; [assumption | apply IH; reflexivity].
Qed.

Lemma updateMarcationCards_record attendance cards :
  nullish attendance = false ->
  snd (updateMarcationCards attendance cards) = Normal tt.
Proof.
  intros Hrec. unfold updateMarcationCards.
  pose proof (forEachCard_total (updateCard attendance) cards
                (fun card => updateCard_record attendance card Hrec)) as H.
  destruct (forEachCard (updateCard attendance) cards) as [cards' c].
  simpl in H. subst c. reflexivity.
Qed.

(** C6: a record whose entry time is set and whose break start, break end
    and exit times are unset evaluates to Entry completed with the stored
    entry time, BreakStart available, Exit available and BreakEnd blocked
    for want of a break start. *)
Theorem entry_only_record attendance t card :
  nullish attendance = false ->
  isSet attendance "horaentrada" = true ->
  isSet attendance "horaRefrigerioInicio" = false ->
  isSet attendance "horaRefrigerioFin" = false ->
  isSet attendance "horasalida" = false ->
  dataType card = cardType t ->
  evaluate attendance card
  = Normal (Some match t with
                 | Entry => Completed (textContent (prop attendance "horaentrada"))
                 | BreakStart => Available
                 | BreakEnd => Blocked NoBreakStart
                 | Exit => Available
                 end).
Proof.
  intros Hrec He Hbs Hbe Hx Htype.
  rewrite (evaluate_record attendance t card Hrec Htype).
  unfold verdict. rewrite He, Hbs, Hbe, Hx. destruct t; reflexivity.
Qed.

Definition entryAt0800 : JsValue := JObject [("horaentrada", JString "08:00")].

Lemma entry_only_record_witness :
  evaluate entryAt0800 (freshCard "Ingreso") = Normal (Some (Completed "08:00")) /\
  evaluate entryAt0800 (freshCard "Inicio de Refrigerio") = Normal (Some Available) /\
  evaluate entryAt0800 (freshCard "Salida de Refrigerio") = Normal (Some (Blocked NoBreakStart)) /\
  evaluate entryAt0800 (freshCard "Salida") = Normal (Some Available).
Proof.
  split; [| split; [| split]].
  - exact (entry_only_record entryAt0800 Entry (freshCard "Ingreso")
             eq_refl eq_refl eq_refl eq_refl eq_refl eq_refl).
  - exact (entry_only_record entryAt0800 BreakStart (freshCard "Inicio de Refrigerio")
             eq_refl eq_refl eq_refl eq_refl eq_refl eq_refl).
  - exact (entry_only_record entryAt0800 BreakEnd (freshCard "Salida de Refrigerio")
             eq_refl eq_refl eq_refl eq_refl eq_refl eq_refl).
  - exact (entry_only_record entryAt0800 Exit (freshCard "Salida")
             eq_refl eq_refl eq_refl eq_refl eq_refl eq_refl).
Defined.

(** A record without entry time in which the break start is recorded: the
    BreakStart card is completed, not blocked. *)
Definition breakStartOnly : JsValue :=
  JObject [("horaRefrigerioInicio", JString "12:00")].

Lemma entry_unset_break_started :
  isSet breakStartOnly "horaentrada" = false /\
  evaluate breakStartOnly (freshCard (cardType BreakStart))
  = Normal (Some (Completed "12:00")) /\
  evaluate breakStartOnly (freshCard (cardType BreakEnd))
  = Normal (Some Available).
Proof. repeat split; reflexivity. Qed.

(** C5 (amended): in a record whose entry time is unset, Entry is
    available, and each of BreakStart, BreakEnd and Exit is blocked for
    want of an entry unless its own time is set, in which case it is
    completed with that time, or, for BreakEnd, unless the break start is
    set and the exit is not, in which case it is available. *)
Theorem entry_unset_record attendance t card :
  nullish attendance = false ->
  isSet attendance "horaentrada" = false ->
  dataType card = cardType t ->
  evaluate attendance card
  = Normal (Some match t with
                 | Entry => Available
                 | BreakStart =>
                     if isSet attendance "horaRefrigerioInicio"
                     then Completed (textContent (prop attendance "horaRefrigerioInicio"))
                     else Blocked NoEntry
                 | BreakEnd =>
                     if isSet attendance "horaRefrigerioFin"
                     then Completed (textContent (prop attendance "horaRefrigerioFin"))
                     else if isSet attendance "horaRefrigerioInicio"
                             && negb (isSet attendance "horasalida")
                          then Available
                          else Blocked NoEntry
                 | Exit =>
                     if isSet attendance "horasalida"
                     then Completed (textContent (prop attendance "horasalida"))
                     else Blocked NoEntry
                 end).
Proof.
  intros Hrec He Htype.
  rewrite (evaluate_record attendance t card Hrec Htype).
  unfold verdict. rewrite He. destruct t; simpl; reflexivity.
Qed.

Lemma entry_unset_record_witness :
  evaluate (JObject []) (freshCard "Salida") = Normal (Some (Blocked NoEntry)) /\
  evaluate breakStartOnly (freshCard "Inicio de Refrigerio")
  = Normal (Some (Completed "12:00")).
Proof.
  split.
  - exact (entry_unset_record (JObject []) Exit (freshCard "Salida")
             eq_refl eq_refl eq_refl).
  - exact (entry_unset_record breakStartOnly BreakStart
             (freshCard "Inicio de Refrigerio") eq_refl eq_refl eq_refl).
Defined.

(** With [null] for the record, the evaluation of the first card throws. *)
Lemma null_record_throws :
  evaluate JNull (freshCard "Ingreso")
  = Throw (TypeError "Cannot read properties of null") /\
  updateMarcationCards JNull dashboard
  = (resetClasses (freshCard "Ingreso") :: tail dashboard,
     Throw (TypeError "Cannot read properties of null")).
Proof. split; reflexivity. Qed.

(** Whether the conversion of a value to text completes.  The values of
    a JSON payload are not callable: an object that has a property named
    [toString] cannot be converted (the inherited [valueOf] gives back the
    object), any other object can; an array is converted item by item;
    a primitive always is. *)
Fixpoint convertible (v : JsValue) : bool :=
  match v with
  | JObject props => negb (existsb (fun p => String.eqb (fst p) "toString") props)
  | JArray items => forallb convertible items
  | _ => true
  end.

(** A value that is not set converts: it is a primitive. *)
Lemma unset_convertible v : truthy v = false -> convertible v = true.
Proof. destruct v; simpl; intros H; try discriminate H; reflexivity. Qed.

(** C1 (amended): for every value other than [null] and [undefined] whose
    four time fields can be converted to text, the evaluation completes
    without an exception; a value in which none of the four time fields is
    set (an object without them, a primitive) evaluates like the empty
    record: Entry available, the three others blocked for want of an
    entry.  For [null] and [undefined] the evaluation of a card of any of
    the four types throws a TypeError. *)
Theorem evaluation_of_any_value attendance :
  (nullish attendance = false ->
   convertible (prop attendance "horaentrada") = true ->
   convertible (prop attendance "horaRefrigerioInicio") = true ->
   convertible (prop attendance "horaRefrigerioFin") = true ->
   convertible (prop attendance "horasalida") = true ->
   (forall cards, snd (updateMarcationCards attendance cards) = Normal tt) /\
   (forall card, exists result, evaluate attendance card = Normal result)) /\
  (nullish attendance = false ->
   isSet attendance "horaentrada" = false ->
   isSet attendance "horaRefrigerioInicio" = false ->
   isSet attendance "horaRefrigerioFin" = false ->
   isSet attendance "horasalida" = false ->
   (forall cards, snd (updateMarcationCards attendance cards) = Normal tt) /\
   (forall t card, dataType card = cardType t ->
      evaluate attendance card = evaluate (JObject []) card /\
      evaluate attendance card
      = Normal (Some match t with Entry => Available | _ => Blocked NoEntry end))) /\
  (nullish attendance = true ->
   forall t card, dataType card = cardType t ->
     exists message, evaluate attendance card = Throw (TypeError message)).
Proof.
  split; [| split].
  - intros Hrec _ _ _ _. split.
    + intros cards. apply updateMarcationCards_record, Hrec.
    + intros card. unfold evaluate.
      destruct (updateCard_record attendance card Hrec) as [card' ->].
      simpl. eauto.
  - intros Hrec He Hbs Hbe Hx. split.
    + intros cards. apply updateMarcationCards_record, Hrec.
    + intros t card Htype.
      rewrite (evaluate_record attendance t card Hrec Htype).
      rewrite (evaluate_record (JObject []) t card eq_refl Htype).
      unfold verdict. rewrite He, Hbs, Hbe, Hx. destruct t; split; reflexivity.
  - intros Hnull t card Htype. unfold evaluate.
    destruct (updateCard_nullish attendance t card Hnull Htype) as [message ->].
    simpl. eauto.
Qed.

Lemma evaluation_of_any_value_witness :
  snd (updateMarcationCards entryAt0800 dashboard) = Normal tt /\
  evaluate (JNumber 7) (freshCard "Salida") = Normal (Some (Blocked NoEntry)) /\
  (exists message, evaluate JUndefined (freshCard "Ingreso") = Throw (TypeError message)).
Proof.
  split; [| split].
  - destruct (evaluation_of_any_value entryAt0800) as [Hrec _].
    exact (proj1 (Hrec eq_refl eq_refl eq_refl eq_refl eq_refl) dashboard).
  - destruct (evaluation_of_any_value (JNumber 7)) as (_ & Hempty & _).
    destruct (Hempty eq_refl eq_refl eq_refl eq_refl eq_refl) as [_ Hcards].
    exact (proj2 (Hcards Exit (freshCard "Salida") eq_refl)).
  - destruct (evaluation_of_any_value JUndefined) as (_ & _ & Hnull).
    exact (Hnull eq_refl Entry (freshCard "Ingreso") eq_refl).
Defined.

(** ** Selection and submission *)

(** The four shapes a card can have after the callback. *)
Lemma updateCard_shape attendance card card' :
  updateCard attendance card = Normal card' ->
  card' = resetClasses card \/
  (exists time, card' = completed time (resetClasses card)) \/
  card' = available (resetClasses card) \/
  (exists status, card' = disabled status (resetClasses card)).
Proof.
  intros H. unfold updateCard in H.
  destruct (nullish attendance) eqn:Hn.
  - destruct attendance; try discriminate Hn; simpl in H;
      repeat match type of H with
        | context [if ?b then _ else _] => destruct b; try discriminate H
        end;
      injection H as <-; auto.
  - rewrite !(getProp_record _ _ Hn) in H. simpl in H.
    repeat match type of H with
      | context [if ?b then _ else _] => destruct b; simpl in H
      end;
    injection H as <-; eauto 6.
Qed.

(** After [reassignCardEvents], a card carries the click listener exactly
    when it reads as available. *)
Lemma reassignCard_listener attendance card card' :
  updateCard attendance card = Normal card' ->
  onClick (reassignCard card') = true <->
  eligibility (reassignCard card') = Some Available.
Proof.
  intros H.
  assert (Hsame : eligibility (reassignCard card') = eligibility card').
  { unfold reassignCard; simpl.
    destruct (contains "available" (classList card')) eqn:E;
      unfold eligibility; simpl; rewrite ?E; reflexivity. }
  assert (Hclick : onClick (reassignCard card') = contains "available" (classList card')).
  { unfold reassignCard; simpl.
    destruct (contains "available" (classList card')); reflexivity. }
  rewrite Hsame, Hclick.
  destruct (resetClasses_contains card) as (Hc & Ha & Hd).
  destruct (updateCard_shape _ _ _ H) as [-> | [[time ->] | [-> | [status ->]]]].
  - rewrite eligibility_reset, Ha. split; discriminate.
  - rewrite eligibility_completed. unfold completed, paint; simpl.
    rewrite contains_addClass_other by discriminate.
    change (classList (resetClasses card)) with
      (removeClass "disabled" (removeClass "completed"
         (removeClass "available" (classList card)))) in Ha |- *.
    rewrite Ha. split; discriminate.
  - rewrite eligibility_available. unfold available, paint; simpl.
    rewrite contains_addClass_same. split; reflexivity.
  - rewrite eligibility_disabled. unfold disabled, paint; simpl.
    rewrite contains_addClass_other by discriminate.
    change (classList (resetClasses card)) with
      (removeClass "disabled" (removeClass "completed"
         (removeClass "available" (classList card)))) in Ha |- *.
    rewrite Ha. split; discriminate.
Qed.

Lemma updateMarcationCards_listeners attendance cards cards' :
  updateMarcationCards attendance cards = (cards', Normal tt) ->
  Forall (fun card => onClick card = true <-> eligibility card = Some Available) cards'.
Proof.
  unfold updateMarcationCards.
  destruct (forEachCard (updateCard attendance) cards) as [updated c] eqn:Hupd.
  destruct c as [[]|e]; intros H; [| discriminate H].
  injection H as <-.
  apply forEachCard_normal in Hupd. unfold reassignCardEvents.
  induction Hupd as [|card card' rest rest' Hcard _ IH]; simpl; constructor.
  - eapply reassignCard_listener; eassumption.
  - assumption.
Qed.

(** The effects of the page only accumulate. *)
Definition extends (app app' : MarcacionApp) : Prop :=
  exists later, effects app' = effects app ++ later.

Lemma extends_refl app : extends app app.
Proof. exists []. symmetry. apply app_nil_r. Qed.

Lemma extends_trans app1 app2 app3 :
  extends app1 app2 -> extends app2 app3 -> extends app1 app3.
Proof.
  intros [l1 H1] [l2 H2]. exists (l1 ++ l2). rewrite H2, H1. symmetry. apply app_assoc.
Qed.

Lemma extends_emit e app : extends app (emit e app).
Proof. exists [e]. reflexivity. Qed.

Lemma extends_loadTodayAttendance today app :
  extends app (loadTodayAttendance today app).
Proof.
  unfold loadTodayAttendance.
  destruct today as [response|e].
  - destruct (ok response); simpl.
    + destruct (json response) as [attendance|e]; simpl.
      * destruct (updateMarcationCards attendance _) as [cards' [[]|e]].
        -- exists [Fetch "GET" "/api/attendance/today" JUndefined]. reflexivity.
        -- eexists. unfold showMessage, emit; simpl. rewrite <- app_assoc. reflexivity.
      * eexists. unfold showMessage, emit; simpl. rewrite <- app_assoc. reflexivity.
    + eexists. unfold showMessage, emit; simpl. rewrite <- app_assoc. reflexivity.
  - eexists. unfold showMessage, emit; simpl. rewrite <- app_assoc. reflexivity.
Qed.

Lemma extends_afterPost post today app :
  extends app (fst (afterPost post today app)).
Proof.
  unfold afterPost.
  destruct post as [response|e]; [| apply extends_refl].
  destruct (json response) as [result|e]; [| apply extends_refl].
  destruct (ok response).
  - destruct (getProp result "message") as [message|e]; [| apply extends_refl].
    simpl.
    eapply extends_trans; [apply extends_emit |].
    eapply extends_trans; [apply extends_loadTodayAttendance |].
    eapply extends_trans; apply extends_emit.
  - destruct (getProp result "error") as [error|e]; [| apply extends_refl].
    simpl. apply extends_emit.
Qed.

(** The three effects with which an accepted scan starts. *)
Definition submissionOf (qrCode type : string) : list Effect :=
  [ ShowLoading true;
    ShowMessage "Procesando marcación..." "info";
    Fetch "POST" "/api/attendance/mark"
      (JObject [("qrCode", JString qrCode); ("marcationType", JString type)]) ].

Lemma processQRCode_submits post today qrCode app type :
  isProcessing app = false ->
  currentMarcationType app = Some type ->
  type <> "" ->
  exists later,
    effects (processQRCode post today qrCode app)
    = effects app ++ submissionOf qrCode type ++ later.
Proof.
  intros Hproc Htype Hne. unfold processQRCode.
  rewrite Hproc, Htype. simpl.
  apply String.eqb_neq in Hne. rewrite Hne.
  set (sent := emit _ (showMessage _ _ (showLoading true (setIsProcessing true app)))).
  assert (Hsent : effects sent = effects app ++ submissionOf qrCode type).
  { subst sent. unfold emit, showMessage, showLoading, emit; simpl.
    rewrite Htype. simpl. rewrite <- !app_assoc. reflexivity. }
  clearbody sent.
  pose proof (extends_afterPost post today sent) as [later Hlater].
  destruct (afterPost post today sent) as [app' c]. simpl in Hlater.
  destruct c as [[]|e]; [| destruct (connectionStatus app')];
    unfold setCurrentMarcationType, showLoading, setIsProcessing, showMessage, emit;
    simpl; rewrite Hlater, Hsent, <- !app_assoc; eexists; reflexivity.
Qed.

Lemma clickCard_selects i app :
  clickCard i app = app \/
  exists card,
    cards app !! i = Some card /\ onClick card = true /\ isProcessing app = false /\
    currentMarcationType (clickCard i app) = Some (dataType card).
Proof.
  unfold clickCard.
  destruct (cards app !! i) as [card|] eqn:Hcard; [| left; reflexivity].
  destruct (onClick card) eqn:Hclick; [| left; reflexivity].
  destruct (isProcessing app) eqn:Hproc; simpl; [left; reflexivity |].
  right. exists card. repeat split; try assumption.
  unfold startQRScan; simpl. rewrite Hproc. reflexivity.
Qed.

Lemma processQRCode_rejects post today qrCode app :
  isProcessing app || noTypeSelected (currentMarcationType app) = true ->
  processQRCode post today qrCode app
  = showMessage "Selecciona un tipo de marcación primero" "error" app /\
  submissions (processQRCode post today qrCode app) = submissions app.
Proof.
  intros Hguard. unfold processQRCode. rewrite Hguard. split; [reflexivity |].
  unfold submissions, showMessage, emit; simpl.
  rewrite List.filter_app. simpl. apply app_nil_r.
Qed.

(** A day on which the entry is recorded elsewhere between the selection
    of the Entry card and the scan. *)
Definition okJson (v : JsValue) : Completion Response :=
  Normal (mkResponse true (Normal v)).

Definition morning : MarcacionApp :=
  loadTodayAttendance (okJson (JObject [])) (mkApp None false true dashboard []).

Definition selected : MarcacionApp := clickCard 0 morning.

Definition refreshed : MarcacionApp := loadTodayAttendance (okJson entryAt0800) selected.

Definition scanned : MarcacionApp :=
  processQRCode (okJson (JObject [("message", JString "Marcación registrada")]))
    (okJson entryAt0800) "QR-1" refreshed.

Lemma completed_entry_is_submitted :
  eligibility <$> cards refreshed !! 0 = Some (Some (Completed "08:00")) /\
  currentMarcationType refreshed = Some "Ingreso" /\
  submissions scanned
  = [ Fetch "POST" "/api/attendance/mark"
        (JObject [("qrCode", JString "QR-1"); ("marcationType", JString "Ingreso")]) ].
Proof. split; [| split]; reflexivity. Qed.

(** C9 (amended): eligibility guards the selection of a punch type, not its
    submission.  After [updateMarcationCards] a card carries the click
    listener exactly when it is available, and a click selects a type only
    through that listener, while nothing is being processed.
    [processQRCode] does not consult eligibility: it rejects locally, with
    a message and without a network request, when a submission is in
    progress or no type is selected, and otherwise sends the POST for the
    selected type. *)
Theorem selection_guards_submission :
  (forall attendance cards cards',
     updateMarcationCards attendance cards = (cards', Normal tt) ->
     Forall (fun card => onClick card = true <-> eligibility card = Some Available)
       cards') /\
  (forall i app,
     clickCard i app = app \/
     exists card,
       cards app !! i = Some card /\ onClick card = true /\ isProcessing app = false /\
       currentMarcationType (clickCard i app) = Some (dataType card)) /\
  (forall post today qrCode app,
     isProcessing app || noTypeSelected (currentMarcationType app) = true ->
     processQRCode post today qrCode app
     = showMessage "Selecciona un tipo de marcación primero" "error" app /\
     submissions (processQRCode post today qrCode app) = submissions app) /\
  (forall post today qrCode app type,
     isProcessing app = false ->
     currentMarcationType app = Some type ->
     type <> "" ->
     exists later,
       effects (processQRCode post today qrCode app)
       = effects app ++ submissionOf qrCode type ++ later).
Proof.
  split; [| split; [| split]].
  - apply updateMarcationCards_listeners.
  - apply clickCard_selects.
  - apply processQRCode_rejects.
  - apply processQRCode_submits.
Qed.

Lemma selection_guards_submission_witness :
  submissions (processQRCode (Throw (TypeError "Failed to fetch"))
                 (Throw (TypeError "Failed to fetch")) "QR-1" morning)
  = submissions morning /\
  exists later,
    effects (processQRCode (Throw (TypeError "Failed to fetch"))
               (Throw (TypeError "Failed to fetch")) "QR-1" selected)
    = effects selected ++ submissionOf "QR-1" "Ingreso" ++ later.
Proof.
  destruct selection_guards_submission as (_ & _ & Hreject & Hsubmit).
  split.
  - exact (proj2 (Hreject _ _ "QR-1" morning eq_refl)).
  - apply (Hsubmit _ _ "QR-1" selected "Ingreso"); [reflexivity | reflexivity | discriminate].
Defined.

End AppProperties.

(** * Properties of the service worker *)
Section WorkerProperties.

Import Worker.

Variable location_origin : string.
Variable getOfflineHTML : string.
Variable fetch : Request -> Completion Response.
Variable fetchUsesBody : bool.

Local Abbreviation resolve := (Worker.resolve location_origin).
Local Abbreviation offlinePage := (Worker.offlinePage getOfflineHTML).
Local Abbreviation fetchAll := (Worker.fetchAll location_origin fetch).
Local Abbreviation addAll := (Worker.addAll location_origin fetch).
Local Abbreviation install := (Worker.install location_origin getOfflineHTML fetch).
Local Abbreviation afterFetch := (Worker.afterFetch fetchUsesBody).
Local Abbreviation cacheFirst := (Worker.cacheFirst fetch).
Local Abbreviation offlineFallback := (Worker.offlineFallback fetchUsesBody).
Local Abbreviation handleOfflineMarking := (Worker.handleOfflineMarking fetch fetchUsesBody).
Local Abbreviation fetchListener := (Worker.fetchListener location_origin).
Local Abbreviation dispatchFetch := (Worker.dispatchFetch location_origin fetch fetchUsesBody).

(** ** The fetch listener *)

(** A POST to the submission endpoint of the worker's own origin. *)
Definition submissionRequest (request : Request) : Prop :=
  origin (parseURL (url request)) = location_origin /\
  method request = "POST" /\
  startsWith (pathname (parseURL (url request))) "/api/attendance/mark" = true.

Lemma submissionRequest_strategy request :
  submissionRequest request ->
  fetchListener request = Normal (Some HandleOfflineMarking).
Proof.
  intros (Horigin & Hmethod & Hpath). unfold Worker.fetchListener.
  rewrite Horigin, String.eqb_refl, Hmethod, Hpath. reflexivity.
Qed.

Lemma dispatch_submission request caches :
  submissionRequest request ->
  dispatchFetch request caches
  = (Responded (fst (handleOfflineMarking request caches)), caches).
Proof.
  intros Hsub. unfold Worker.dispatchFetch.
  rewrite (submissionRequest_strategy request Hsub). reflexivity.
Qed.

(** C10: a request to another origin is not answered by the worker: the
    listener returns before choosing a strategy, the browser performs the
    request itself, so that its caller receives what the network gives, and
    the cache storage is as it was. *)
Theorem cross_origin_passes_through request caches :
  origin (parseURL (url request)) <> location_origin ->
  fetchListener request = Normal None /\
  dispatchFetch request caches = (PassedThrough (fetch request), caches) /\
  received (fst (dispatchFetch request caches)) = fetch request.
Proof.
  intros Horigin. apply String.eqb_neq in Horigin.
  assert (Hlistener : fetchListener request = Normal None).
  { unfold Worker.fetchListener. rewrite Horigin. reflexivity. }
  unfold Worker.dispatchFetch. rewrite Hlistener. auto.
Qed.

(** ** handleOfflineMarking *)

Lemma pendingResponse_ok : ok pendingResponse = true.
Proof. reflexivity. Qed.

Lemma body_afterFetch request : body (afterFetch request) = body request.
Proof. unfold Worker.afterFetch. destruct (body request) eqn:E; simpl; auto. Qed.

Lemma offlineFallback_readable request v :
  bodyUsed (afterFetch request) = false ->
  body request = JsonBody v ->
  offlineFallback request = Normal (Some pendingResponse).
Proof.
  intros Hused Hbody. unfold Worker.offlineFallback, clone, json.
  rewrite Hused. simpl. rewrite Hused, body_afterFetch, Hbody. reflexivity.
Qed.

Lemma offlineFallback_outcome request :
  offlineFallback request = Normal (Some pendingResponse) \/
  exists e, offlineFallback request = Throw e.
Proof.
  unfold Worker.offlineFallback, clone, json.
  destruct (bodyUsed (afterFetch request)) eqn:Hused; simpl; [eauto |].
  rewrite Hused. destruct (body (afterFetch request)); simpl; eauto.
Qed.

(** Once [fetch(request)] has used the body, the [catch] block cannot
    read the request again: [clone()] throws when there is a body, and
    [json()] when there is none. *)
Lemma offlineFallback_after_fetch request :
  fetchUsesBody = true ->
  exists e, offlineFallback request = Throw e.
Proof.
  intros Huses. unfold Worker.offlineFallback, clone, json, Worker.afterFetch.
  rewrite Huses.
  destruct (body request) eqn:Hbody; simpl.
  - destruct (bodyUsed request) eqn:Hused; simpl; [eauto |].
    rewrite Hused, Hbody. eauto.
  - rewrite orb_true_r. simpl. eauto.
  - rewrite orb_true_r. simpl. eauto.
Qed.

(** C2 (fails on the code): [fetch(request)] leaves the body of the
    request used, so that when the fetch of a POST to the submission
    endpoint fails, the [catch] block of [handleOfflineMarking] throws
    before it builds its 202 response: the promise given to [respondWith]
    rejects and the caller gets a network error, for every such request. *)
Theorem offline_marking_is_rejected request caches error :
  fetchUsesBody = true ->
  submissionRequest request ->
  fetch request = Throw error ->
  (exists e, dispatchFetch request caches = (Responded (Throw e), caches)) /\
  received (fst (dispatchFetch request caches)) = Throw (TypeError "Failed to fetch").
Proof.
  intros Huses Hsub Hfetch.
  rewrite (dispatch_submission request caches Hsub).
  unfold Worker.handleOfflineMarking. rewrite Hfetch. simpl.
  destruct (offlineFallback_after_fetch request Huses) as [e ->].
  split; [eauto | reflexivity].
Qed.

(** C3 (amended): the answer of the server to a POST to the submission
    endpoint is forwarded unchanged when it is ok (2xx).  An answer that is
    not ok is treated like a failed fetch: the caller gets what the catch
    block of [handleOfflineMarking] gives (its own 202 response when the
    request can still be cloned and its body read as JSON), never the
    answer of the server. *)
Theorem server_answer_is_forwarded_when_ok request caches response :
  submissionRequest request ->
  fetch request = Normal response ->
  (ok response = true ->
   dispatchFetch request caches = (Responded (Normal (Some response)), caches)) /\
  (ok response = false ->
   dispatchFetch request caches = (Responded (offlineFallback request), caches) /\
   received (fst (dispatchFetch request caches)) <> Normal response /\
   (bodyUsed (afterFetch request) = false ->
    forall v, body request = JsonBody v ->
      received (fst (dispatchFetch request caches)) = Normal pendingResponse)).
Proof.
  intros Hsub Hfetch.
  rewrite (dispatch_submission request caches Hsub).
  unfold Worker.handleOfflineMarking. rewrite Hfetch. simpl.
  split; intros Hok; rewrite Hok; simpl; [reflexivity |].
  split; [reflexivity |]. split.
  - destruct (offlineFallback_outcome request) as [-> | [e ->]]; simpl.
    + intros Heq. injection Heq as <-. rewrite pendingResponse_ok in Hok. discriminate.
    + discriminate.
  - intros Hused v Hbody.
    rewrite (offlineFallback_readable request v Hused Hbody). reflexivity.
Qed.

(** ** cacheFirst *)

Lemma putIn_stores name key response (caches : CacheStorage) :
  cachesMatch key caches = None ->
  name ∈ cachesKeys caches ->
  cachesMatch key (putIn name key response caches) = Some response.
Proof.
  unfold cachesKeys.
  induction caches as [|[n cache] rest IH]; intros Hmiss Hhas.
  - inversion Hhas.
  - simpl in Hmiss |- *.
    destruct (cache !! key) eqn:Hcache; [discriminate Hmiss |].
    destruct (String.eqb n name) eqn:Hname; simpl.
    + rewrite lookup_insert_eq. reflexivity.
    + rewrite Hcache. apply IH; [assumption |].
      apply elem_of_cons in Hhas as [Heq | Hin]; [| assumption].
      apply String.eqb_neq in Hname. simpl in Heq. congruence.
Qed.

Lemma cachesMatch_app key caches more :
  cachesMatch key caches = None ->
  cachesMatch key (caches ++ more)%list = cachesMatch key more.
Proof.
  induction caches as [|[n cache] rest IH]; simpl; intros Hmiss; [reflexivity |].
  destruct (cache !! key); [discriminate Hmiss | auto].
Qed.

Lemma cachePut_stores name key response caches :
  cachesMatch key caches = None ->
  cachesMatch key (cachePut name key response caches) = Some response.
Proof.
  intros Hmiss. unfold cachePut, cachesOpen.
  destruct (cachesHas name caches) eqn:Hhas.
  - apply putIn_stores; [assumption |].
    apply bool_decide_eq_true_1 in Hhas. exact Hhas.
  - apply putIn_stores.
    + rewrite (cachesMatch_app key caches _ Hmiss). reflexivity.
    + unfold cachesKeys. rewrite map_app. apply elem_of_app. right. simpl. constructor.
Qed.

(** C7: Cache-First.  A request for which the cache storage holds an entry
    is answered with that entry, whatever the network does, and the
    storage is left as it is.  On a miss the request is fetched: the
    response of the network is returned, and it is stored (under the URL
    of the request, in the current cache) exactly when it is ok; when the
    fetch fails, the answer is a 503 response and nothing is stored. *)
Theorem cacheFirst_strategy request caches :
  (forall cachedResponse,
     cachesMatch (url request) caches = Some cachedResponse ->
     cacheFirst request caches = (Normal (Some cachedResponse), caches)) /\
  (cachesMatch (url request) caches = None ->
   (forall networkResponse,
      fetch request = Normal networkResponse ->
      (ok networkResponse = true ->
       cacheFirst request caches
       = (Normal (Some networkResponse),
          cachePut CACHE_NAME (url request) networkResponse caches) /\
       cachesMatch (url request) (snd (cacheFirst request caches))
       = Some networkResponse) /\
      (ok networkResponse = false ->
       cacheFirst request caches = (Normal (Some networkResponse), caches))) /\
   (forall error,
      fetch request = Throw error ->
      cacheFirst request caches
      = (Normal (Some (mkResponse 503 [] (OtherBody "Recurso no disponible offline"))),
         caches))).
Proof.
  unfold Worker.cacheFirst. split.
  - intros cachedResponse ->. reflexivity.
  - intros Hmiss. rewrite Hmiss. split.
    + intros networkResponse ->. split; intros ->; [| reflexivity].
      split; [reflexivity |]. simpl. apply cachePut_stores, Hmiss.
    + intros error ->. reflexivity.
Qed.

(** ** install and activate *)

(** The names of the current generation. *)
Definition current (name : string) : bool :=
  String.eqb name CACHE_NAME || String.eqb name OFFLINE_CACHE.

(** The cache that results from storing the entries in order. *)
Definition stored (entries : list (string * Response)) : gmap string Response :=
  foldl (fun cache entry => <[fst entry := snd entry]> cache) ∅ entries.

Lemma cachesOpen_absent name (caches : CacheStorage) :
  name ∉ cachesKeys caches ->
  cachesOpen name caches = (caches ++ [(name, ∅)])%list.
Proof.
  intros Habsent. unfold cachesOpen, cachesHas.
  rewrite bool_decide_eq_false_2 by assumption. reflexivity.
Qed.

Lemma putIn_app_absent name key response (caches more : CacheStorage) :
  name ∉ cachesKeys caches ->
  putIn name key response (caches ++ more)%list
  = (caches ++ putIn name key response more)%list.
Proof.
  unfold cachesKeys.
  induction caches as [|[n cache] rest IH]; intros Habsent; [reflexivity |].
  simpl in Habsent |- *. apply not_elem_of_cons in Habsent as [Hne Hrest].
  assert (Hn : String.eqb n name = false) by (apply String.eqb_neq; congruence).
  rewrite Hn, IH by assumption. reflexivity.
Qed.

Lemma putIn_head name key response cache (more : CacheStorage) :
  putIn name key response ((name, cache) :: more)
  = (name, <[key := response]> cache) :: more.
Proof. simpl. rewrite String.eqb_refl. reflexivity. Qed.

Lemma putIn_all name entries (caches : CacheStorage) cache more :
  name ∉ cachesKeys caches ->
  foldl (fun cs entry => putIn name (fst entry) (snd entry) cs)
    (caches ++ (name, cache) :: more)%list entries
  = (caches
     ++ (name, foldl (fun c entry => <[fst entry := snd entry]> c) cache entries)
     :: more)%list.
Proof.
  intros Habsent. revert cache.
  induction entries as [|[key response] rest IH]; intros cache; [reflexivity |].
  simpl. rewrite putIn_app_absent, putIn_head by assumption. apply IH.
Qed.

Lemma fetchAll_keys files entries :
  fetchAll files = Normal entries ->
  map fst entries = map resolve files.
Proof.
  revert entries. induction files as [|file rest IH]; simpl; intros entries H.
  - injection H as <-. reflexivity.
  - destruct (fetch (requestFor location_origin file)) as [response|e];
      [| discriminate H].
    simpl in H. destruct (ok response); [| discriminate H].
    destruct (fetchAll rest) as [responses|e]; [| discriminate H].
    simpl in H. injection H as <-. simpl. rewrite (IH responses eq_refl). reflexivity.
Qed.

Lemma dom_foldl_insert entries (cache : gmap string Response) :
  dom (foldl (fun c entry => <[fst entry := snd entry]> c) cache entries)
  = dom cache ∪ list_to_set (map fst entries).
Proof.
  revert cache. induction entries as [|[key response] rest IH]; intros cache; simpl.
  - set_solver.
  - rewrite IH, dom_insert_L. set_solver.
Qed.

Lemma cachesDelete_filter name (caches : CacheStorage) keep :
  cachesDelete name (List.filter keep caches)
  = List.filter (fun entry => keep entry && negb (String.eqb (fst entry) name)) caches.
Proof.
  unfold cachesDelete.
  induction caches as [|entry rest IH]; simpl; [reflexivity |].
  destruct (keep entry); simpl; [| assumption].
  destruct (String.eqb (fst entry) name); simpl; [assumption | f_equal; assumption].
Qed.

(** [activate] keeps the caches of the current generation and deletes
    every other cache it lists. *)
Lemma activate_step names (caches : CacheStorage) keep :
  foldl (fun cs cacheName =>
           if negb (String.eqb cacheName CACHE_NAME)
              && negb (String.eqb cacheName OFFLINE_CACHE)
           then cachesDelete cacheName cs else cs)
        (List.filter keep caches) names
  = List.filter (fun entry =>
                   keep entry &&
                   (current (fst entry) || negb (bool_decide (fst entry ∈ names))))
                caches.
Proof.
  revert keep. induction names as [|name rest IH]; intros keep; simpl.
  - apply List.filter_ext. intros entry.
    rewrite orb_true_r, andb_true_r. reflexivity.
  - destruct (negb (String.eqb name CACHE_NAME) && negb (String.eqb name OFFLINE_CACHE))
      eqn:Hold.
    + rewrite cachesDelete_filter, IH. apply List.filter_ext. intros entry.
      destruct (keep entry); simpl; [| reflexivity].
      destruct (String.eqb (fst entry) name) eqn:Hname; simpl.
      * apply String.eqb_eq in Hname. rewrite Hname.
        rewrite (bool_decide_eq_true_2 (name ∈ name :: rest)) by constructor.
        unfold current. apply andb_true_iff in Hold as [H1 H2].
        apply negb_true_iff in H1, H2. rewrite H1, H2. reflexivity.
      * apply String.eqb_neq in Hname. f_equal. f_equal.
        apply bool_decide_ext. rewrite elem_of_cons. tauto.
    + rewrite IH. apply List.filter_ext. intros entry.
      destruct (keep entry); simpl; [| reflexivity].
      destruct (current (fst entry)) eqn:Hcur; simpl; [reflexivity |].
      f_equal. apply bool_decide_ext. rewrite elem_of_cons.
      split; [tauto |]. intros [Heq | Hin]; [| assumption].
      exfalso. rewrite Heq in Hcur. unfold current in Hcur.
      apply orb_false_iff in Hcur as [H1 H2]. rewrite H1, H2 in Hold. discriminate.
Qed.

Lemma activate_filter (caches : CacheStorage) :
  activate caches = List.filter (fun entry => current (fst entry)) caches.
Proof.
  unfold activate.
  pose proof (activate_step (cachesKeys caches) caches (fun _ => true)) as H.
  rewrite (List.filter_ext (fun _ => true) (fun _ => true) (fun _ => eq_refl) caches) in H.
  replace (List.filter (fun _ => true) caches) with caches in H
    by (clear; induction caches; simpl; congruence).
  rewrite H. apply List.filter_ext_in. intros entry Hin. simpl.
  rewrite (bool_decide_eq_true_2 (fst entry ∈ cachesKeys caches)).
  - rewrite orb_false_r. reflexivity.
  - unfold cachesKeys. apply list_elem_of_In, in_map, Hin.
Qed.

Lemma filter_current_old (caches : CacheStorage) :
  CACHE_NAME ∉ cachesKeys caches ->
  OFFLINE_CACHE ∉ cachesKeys caches ->
  List.filter (fun entry => current (fst entry)) caches = [].
Proof.
  unfold cachesKeys.
  induction caches as [|[n cache] rest IH]; simpl; intros Hc Ho; [reflexivity |].
  apply not_elem_of_cons in Hc as [Hc1 Hc2]. apply not_elem_of_cons in Ho as [Ho1 Ho2].
  unfold current at 1. simpl.
  assert (String.eqb n CACHE_NAME = false) as -> by (apply String.eqb_neq; congruence).
  assert (String.eqb n OFFLINE_CACHE = false) as -> by (apply String.eqb_neq; congruence).
  simpl. apply IH; assumption.
Qed.

(** C8: activation after a version bump.  When no cache of the previous
    generation carries one of the current names and the installation has
    succeeded, the caches left by the activation are the two current ones
    and nothing else: the current cache holds exactly the essential files,
    as fetched at installation, and the offline cache the one offline
    page.  Every cache with another name has been deleted. *)
Theorem activation_leaves_current_generation (old caches1 : CacheStorage) :
  CACHE_NAME ∉ cachesKeys old ->
  OFFLINE_CACHE ∉ cachesKeys old ->
  install old = (Normal tt, caches1) ->
  exists entries,
    fetchAll ESSENTIAL_FILES = Normal entries /\
    activate caches1
    = [ (CACHE_NAME, stored entries);
        (OFFLINE_CACHE, {[ resolve "/offline" := offlinePage ]}) ] /\
    dom (stored entries) = list_to_set (map resolve ESSENTIAL_FILES) /\
    (forall name, name ∈ cachesKeys old -> name ∉ cachesKeys (activate caches1)) /\
    (forall name, name ∈ cachesKeys (activate caches1) ->
                  name = CACHE_NAME \/ name = OFFLINE_CACHE).
Proof.
  intros Hc Ho Hinstall.
  unfold Worker.install, Worker.addAll in Hinstall.
  rewrite (cachesOpen_absent CACHE_NAME old Hc) in Hinstall.
  destruct (fetchAll ESSENTIAL_FILES) as [entries|e] eqn:Hfetch;
    [| discriminate Hinstall].
  injection Hinstall as <-.
  rewrite (putIn_all CACHE_NAME entries old ∅ [] Hc).
  fold (stored entries).
  assert (Ho' : OFFLINE_CACHE ∉ cachesKeys (old ++ [(CACHE_NAME, stored entries)])%list).
  { unfold cachesKeys. rewrite map_app. apply not_elem_of_app. split; [exact Ho |].
    simpl. apply not_elem_of_cons. split; [discriminate | apply not_elem_of_nil]. }
  unfold cachePut. rewrite (cachesOpen_absent OFFLINE_CACHE _ Ho').
  rewrite (putIn_app_absent OFFLINE_CACHE _ _ _ _ Ho'), putIn_head.
  rewrite insert_empty.
  assert (Hact : activate ((old ++ [(CACHE_NAME, stored entries)])
                           ++ [(OFFLINE_CACHE, {[resolve "/offline" := offlinePage]})])%list
                 = [ (CACHE_NAME, stored entries);
                     (OFFLINE_CACHE, {[ resolve "/offline" := offlinePage ]}) ]).
  { rewrite activate_filter, !List.filter_app, (filter_current_old old Hc Ho).
    reflexivity. }
  exists entries. rewrite Hact. split; [reflexivity |]. split; [reflexivity |].
  split; [| split].
  - unfold stored. rewrite dom_foldl_insert, (fetchAll_keys _ _ Hfetch). set_solver.
  - intros name Hin Hleft. simpl in Hleft.
    apply elem_of_cons in Hleft as [-> | Hleft]; [contradiction |].
    apply elem_of_cons in Hleft as [-> | Hleft]; [contradiction | inversion Hleft].
  - intros name Hleft. simpl in Hleft.
    apply elem_of_cons in Hleft as [-> | Hleft]; [left; reflexivity |].
    apply elem_of_cons in Hleft as [-> | Hleft]; [right; reflexivity | inversion Hleft].
Qed.

End WorkerProperties.

(** * A site, its network and its requests *)
Section WorkerExamples.

Import Worker.

Definition site : string := "https://pulse.hispe.example".

(** Stands for the markup of the offline page. *)
Definition offlineMarkup : string := "<!DOCTYPE html>".

(** No network: every fetch fails. *)
Definition unreachable : Request -> Completion Response :=
  fun _ => Throw (TypeError "Failed to fetch").

(** A server that rejects every marking with a structured error. *)
Definition rejection : Response :=
  mkResponse 400 [("Content-Type", "application/json")]
    (JsonBody (JObject [("error", JString "Código QR no válido")])).

Definition rejecting : Request -> Completion Response :=
  fun _ => Normal rejection.

(** A server that serves every URL with a page of its own. *)
Definition pageOf (request : Request) : Response :=
  mkResponse 200 [("Content-Type", "text/plain")] (OtherBody (url request)).

Definition serving : Request -> Completion Response :=
  fun request => Normal (pageOf request).

(** The submission of the page script, and one whose body is not JSON. *)
Definition markRequest (content : Body) : Request :=
  mkRequest (site ++ "/api/attendance/mark") "POST" "cors" (Some "*/*") content false.

Definition punch : Body :=
  JsonBody (JObject [("qrCode", JString "QR-1"); ("marcationType", JString "Ingreso")]).

Definition formEncoded : Body := OtherBody "qrCode=QR-1&marcationType=Ingreso".

Definition styleRequest : Request :=
  mkRequest (site ++ "/static/css/style.css") "GET" "no-cors" (Some "text/css,*/*") NoBody false.

Definition scannerRequest : Request :=
  mkRequest "https://unpkg.com/html5-qrcode/minified/html5-qrcode.min.js"
    "GET" "no-cors" (Some "*/*") NoBody false.

Definition styleSheet : Response :=
  mkResponse 200 [("Content-Type", "text/css")] (OtherBody "body { margin: 0 }").

Definition withStyle : CacheStorage :=
  [ (CACHE_NAME, {[ site ++ "/static/css/style.css" := styleSheet ]});
    (OFFLINE_CACHE, ∅) ].

Definition previousGeneration : CacheStorage :=
  [ ("hispe-pulse-v0.9.0", {[ site ++ "/old.js" := styleSheet ]});
    ("hispe-offline-v0.9", ∅) ].

(** What the claim about the offline answer asks of the answer. *)
Definition announcesAccepted (answer : Completion Response) : Prop :=
  exists response fields,
    answer = Normal response /\
    status response = 202%Z /\
    payload response = JsonBody fields /\
    prop fields "accepted" = JBool true /\
    prop fields "pending" = JBool true.

Lemma pendingResponse_not_accepted : ~ announcesAccepted (Normal pendingResponse).
Proof.
  intros (response & fields & Heq & _ & Hpayload & Haccepted & _).
  injection Heq as <-. injection Hpayload as <-. discriminate Haccepted.
Qed.

Lemma thrown_not_accepted e : ~ announcesAccepted (Throw e).
Proof. intros (response & fields & Heq & _). discriminate Heq. Qed.

(** The submission of the page script while the network is down: the
    answer carries no field [accepted], whether or not the failed fetch
    left the body of the request readable. *)
Lemma offline_marking_not_accepted :
  received (fst (dispatchFetch site unreachable false (markRequest punch) []))
  = Normal pendingResponse /\
  ~ announcesAccepted
      (received (fst (dispatchFetch site unreachable false (markRequest punch) []))) /\
  ~ announcesAccepted
      (received (fst (dispatchFetch site unreachable true (markRequest punch) []))).
Proof.
  split; [reflexivity |]. split.
  - apply pendingResponse_not_accepted.
  - apply thrown_not_accepted.
Qed.

Lemma offline_marking_is_rejected_witness :
  (exists e, dispatchFetch site unreachable true (markRequest punch) withStyle
             = (Responded (Throw e), withStyle)) /\
  received (fst (dispatchFetch site unreachable true (markRequest punch) withStyle))
  = Throw (TypeError "Failed to fetch").
Proof.
  exact (offline_marking_is_rejected site unreachable true (markRequest punch)
           withStyle (TypeError "Failed to fetch")
           eq_refl (conj eq_refl (conj eq_refl eq_refl)) eq_refl).
Defined.

(** The submission of the page script rejected by the server: the caller
    does not get the rejection. *)
Lemma server_rejection_is_replaced :
  fst (dispatchFetch site rejecting false (markRequest punch) [])
  = Responded (Normal (Some pendingResponse)) /\
  received (fst (dispatchFetch site rejecting false (markRequest punch) []))
  <> Normal rejection /\
  received (fst (dispatchFetch site rejecting true (markRequest punch) []))
  <> Normal rejection.
Proof. split; [reflexivity |]. split; discriminate. Qed.

Lemma server_answer_is_forwarded_when_ok_witness :
  dispatchFetch site serving false (markRequest punch) withStyle
  = (Responded (Normal (Some (pageOf (markRequest punch)))), withStyle) /\
  received (fst (dispatchFetch site rejecting false (markRequest punch) withStyle))
  = Normal pendingResponse.
Proof.
  split.
  - exact (proj1 (server_answer_is_forwarded_when_ok site serving false
                    (markRequest punch) withStyle (pageOf (markRequest punch))
                    (conj eq_refl (conj eq_refl eq_refl)) eq_refl) eq_refl).
  - destruct (server_answer_is_forwarded_when_ok site rejecting false
                (markRequest punch) withStyle rejection
                (conj eq_refl (conj eq_refl eq_refl)) eq_refl) as [_ Hrejected].
    destruct (Hrejected eq_refl) as (_ & _ & Hreadable).
    exact (Hreadable eq_refl _ eq_refl).
Defined.

(** C4 (fails on the code): a POST to the submission endpoint whose body is
    not JSON, while the network is down.  The promise given to
    [respondWith] rejects, at [clone()] when the failed fetch left the body
    used and at [json()] otherwise, and the caller gets a network error
    instead of a response. *)
Theorem malformed_marking_is_not_answered :
  dispatchFetch site unreachable true (markRequest formEncoded) withStyle
  = (Responded (Throw (TypeError "Request body is already used")), withStyle) /\
  dispatchFetch site unreachable false (markRequest formEncoded) withStyle
  = (Responded (Throw (SyntaxError "Unexpected token")), withStyle) /\
  received (fst (dispatchFetch site unreachable true (markRequest formEncoded) withStyle))
  = Throw (TypeError "Failed to fetch") /\
  received (fst (dispatchFetch site unreachable false (markRequest formEncoded) withStyle))
  = Throw (TypeError "Failed to fetch").
Proof. repeat split. Qed.

(** A navigation while the network is down and no offline page is stored:
    the promise given to [respondWith] resolves to [undefined]. *)
Definition pageRequest : Request :=
  mkRequest (site ++ "/dashboard") "GET" "navigate" (Some "text/html") NoBody false.

Lemma navigation_without_offline_page :
  dispatchFetch site unreachable true pageRequest [] = (Responded (Normal None), []).
Proof. reflexivity. Qed.

Lemma cacheFirst_strategy_witness :
  cacheFirst unreachable styleRequest withStyle = (Normal (Some styleSheet), withStyle) /\
  cachesMatch (url styleRequest) (snd (cacheFirst serving styleRequest previousGeneration))
  = Some (pageOf styleRequest).
Proof.
  split.
  - exact (proj1 (cacheFirst_strategy unreachable styleRequest withStyle)
             styleSheet eq_refl).
  - destruct (cacheFirst_strategy serving styleRequest previousGeneration) as [_ Hmiss].
    destruct (Hmiss eq_refl) as [Hfetched _].
    exact (proj2 (proj1 (Hfetched (pageOf styleRequest) eq_refl) eq_refl)).
Defined.

Lemma cross_origin_passes_through_witness :
  dispatchFetch site unreachable true scannerRequest withStyle
  = (PassedThrough (unreachable scannerRequest), withStyle).
Proof.
  refine (proj1 (proj2 (cross_origin_passes_through site unreachable true
                          scannerRequest withStyle _))).
  vm_compute. discriminate.
Defined.

Lemma activation_leaves_current_generation_witness :
  cachesKeys (activate (snd (install site offlineMarkup serving previousGeneration)))
  = [CACHE_NAME; OFFLINE_CACHE].
Proof.
  destruct (activation_leaves_current_generation site offlineMarkup serving
              previousGeneration
              (snd (install site offlineMarkup serving previousGeneration)))
    as (entries & _ & Hleft & _).
  - vm_compute. intros H. inversion H as [|? ? ? H']; subst.
    inversion H' as [|? ? ? H'']; subst. inversion H''.
  - vm_compute. intros H. inversion H as [|? ? ? H']; subst.
    inversion H' as [|? ? ? H'']; subst. inversion H''.
  - reflexivity.
  - rewrite Hleft. reflexivity.
Defined.

End WorkerExamples.

(** * More of the page script: connection check and refresh triggers *)
Module Connection.

Import App.

(** The [#connectionStatus] element: the background of its dot, its text
    and its colour. *)
Record StatusIndicator : Type := mkIndicator {
  dotBackground : string;
  statusText : string;
  indicatorColor : string
}.

(** [updateConnectionStatus(isConnected)] assigns all three. *)
Definition updateConnectionStatus (isConnected : bool) : StatusIndicator :=
  if isConnected
  then mkIndicator "var(--color-success)" "Conectado" "var(--color-success)"
  else mkIndicator "var(--color-error)" "Sin conexión" "var(--color-error)".

Definition setConnectionStatus (b : bool) (app : MarcacionApp) : MarcacionApp :=
  mkApp (currentMarcationType app) (isProcessing app) b (cards app) (effects app).

(** [checkConnection], given how [fetch('/api/health')] settles: the
    application, the indicator and how the call ends (the [catch] block
    rethrows). *)
Definition checkConnection (health : Completion Response) (app0 : MarcacionApp)
  : MarcacionApp * StatusIndicator * Completion unit :=
  let app := emit (Fetch "GET" "/api/health" JUndefined) app0 in
  match health with
  | Normal response =>
      let app := setConnectionStatus (ok response) app in
      if negb (connectionStatus app) then
        (setConnectionStatus false app, updateConnectionStatus false,
         Throw (Error "Servidor no disponible"))
      else (app, updateConnectionStatus (connectionStatus app), Normal tt)
  | Throw error =>
      (setConnectionStatus false app, updateConnectionStatus false, Throw error)
  end.

(** The callback of the interval set by [startAutoRefresh]; [hidden] is
    [document.hidden]. *)
Definition autoRefreshTick (hidden : bool) (today : Completion Response)
    (app : MarcacionApp) : MarcacionApp :=
  if negb (isProcessing app) && negb hidden then loadTodayAttendance today app
  else app.

(** The [visibilitychange] listener of [setupEventListeners]. *)
Definition onVisibilityChange (hidden : bool) (today : Completion Response)
    (app : MarcacionApp) : MarcacionApp :=
  if negb hidden then loadTodayAttendance today app else app.

(** [refresh()] *)
Definition refresh (today : Completion Response) (app : MarcacionApp) : MarcacionApp :=
  loadTodayAttendance today app.

End Connection.

(** * Further properties of the page script *)
Section PageProperties.

Import App Connection.
Local Open Scope list_scope.

(** ** The cards as a function of the record *)

(** The field a punch type records. *)
Definition ownField (t : PunchType) : string :=
  match t with
  | Entry => "horaentrada"
  | BreakStart => "horaRefrigerioInicio"
  | BreakEnd => "horaRefrigerioFin"
  | Exit => "horasalida"
  end.

(** The status text of a blocked card. *)
Definition statusOf (r : Reason) : string :=
  match r with
  | NoEntry => "Requiere ingreso"
  | NoBreakStart => "Requiere inicio refrigerio"
  | BreakInProgress => "Termine refrigerio primero"
  | Unavailable => "No disponible"
  end.

(** What the callback assigns to a card of type [t], by verdict. *)
Definition paintVerdict (attendance : JsValue) (t : PunchType) : Card -> Card :=
  match verdict attendance t with
  | Completed _ => completed (prop attendance (ownField t))
  | Available => available
  | Blocked r => disabled (statusOf r)
  end.

Lemma updateCard_paints attendance t card :
  nullish attendance = false ->
  dataType card = cardType t ->
  updateCard attendance card = Normal (paintVerdict attendance t (resetClasses card)).
Proof.
  intros Hrec Htype. unfold updateCard.
  rewrite dataType_resetClasses, Htype.
  rewrite !(getProp_record _ _ Hrec).
  unfold paintVerdict, verdict, isSet.
  destruct t; simpl;
    repeat match goal with
      | |- context [truthy ?v] => destruct (truthy v); simpl
      end; reflexivity.
Qed.

Definition knownType (type : string) : bool :=
  String.eqb type "Ingreso" || String.eqb type "Inicio de Refrigerio"
  || String.eqb type "Salida de Refrigerio" || String.eqb type "Salida".

Lemma knownType_cardType type :
  knownType type = true -> exists t, type = cardType t.
Proof.
  unfold knownType. intros H.
  repeat (apply orb_true_iff in H as [H | H]);
    apply String.eqb_eq in H; subst type.
  - exists Entry; reflexivity.
  - exists BreakStart; reflexivity.
  - exists BreakEnd; reflexivity.
  - exists Exit; reflexivity.
Qed.

Lemma updateCard_unknown attendance card :
  knownType (dataType card) = false ->
  updateCard attendance card = Normal (resetClasses card).
Proof.
  unfold knownType. intros H.
  repeat (apply orb_false_iff in H as [H ?]).
  unfold updateCard. rewrite dataType_resetClasses.
  repeat match goal with
    | Hne : String.eqb _ _ = false |- _ => rewrite Hne; clear Hne
    end.
  reflexivity.
Qed.

Lemma reasonOf_statusOf r : reasonOf (statusOf r) = r.
Proof. destruct r; reflexivity. Qed.

Lemma eligibility_paintVerdict attendance t card :
  eligibility (paintVerdict attendance t (resetClasses card))
  = Some match verdict attendance t with
         | Completed _ => Completed (textContent (prop attendance (ownField t)))
         | v => v
         end.
Proof.
  unfold paintVerdict. destruct (verdict attendance t) as [time| |r].
  - apply eligibility_completed.
  - apply eligibility_available.
  - rewrite eligibility_disabled, reasonOf_statusOf. reflexivity.
Qed.

Lemma verdict_completed attendance t time :
  verdict attendance t = Completed time ->
  isSet attendance (ownField t) = true /\
  time = textContent (prop attendance (ownField t)).
Proof.
  unfold verdict. destruct t; simpl;
    repeat match goal with
      | |- context [isSet ?a ?f] => destruct (isSet a f); simpl
      end; intros H; try discriminate H; injection H as <-; auto.
Qed.

Lemma verdict_ownField attendance t :
  isSet attendance (ownField t) = true ->
  verdict attendance t = Completed (textContent (prop attendance (ownField t))).
Proof. unfold verdict. destruct t; simpl; intros ->; reflexivity. Qed.

Lemma eligibility_reassignCard card :
  eligibility (reassignCard card) = eligibility card.
Proof.
  unfold reassignCard; simpl.
  destruct (contains "available" (classList card)) eqn:E;
    unfold eligibility; simpl; rewrite ?E; reflexivity.
Qed.

Lemma onClick_reassignCard card :
  onClick (reassignCard card) = contains "available" (classList card).
Proof.
  unfold reassignCard; simpl.
  destruct (contains "available" (classList card)); reflexivity.
Qed.

Lemma texts_reassignCard card :
  cardTime (reassignCard card) = cardTime card /\
  cardStatus (reassignCard card) = cardStatus card /\
  dataType (reassignCard card) = dataType card /\
  classList (reassignCard card) = classList card.
Proof.
  unfold reassignCard; simpl.
  destruct (contains "available" (classList card)); auto.
Qed.

Lemma cursor_reassignCard card :
  cursor (reassignCard card)
  = if contains "available" (classList card) then "pointer"
    else if contains "completed" (classList card) then "default" else "not-allowed".
Proof.
  unfold reassignCard; simpl.
  destruct (contains "available" (classList card)); reflexivity.
Qed.

(** The state classes of a card painted by verdict. *)
Lemma classes_paintVerdict attendance t card :
  let painted := paintVerdict attendance t (resetClasses card) in
  contains "completed" (classList painted)
  = match verdict attendance t with Completed _ => true | _ => false end /\
  contains "available" (classList painted)
  = match verdict attendance t with Available => true | _ => false end /\
  contains "disabled" (classList painted)
  = match verdict attendance t with Blocked _ => true | _ => false end.
Proof.
  destruct (resetClasses_contains card) as (Hc & Ha & Hd).
  revert Hc Ha Hd. cbv zeta. unfold paintVerdict.
  generalize (resetClasses card) as c. intros c Hc Ha Hd.
  destruct (verdict attendance t); unfold completed, available, disabled, paint; simpl;
    (rewrite ?contains_addClass_same, ?contains_addClass_other by discriminate);
    rewrite ?Hc, ?Ha, ?Hd; auto.
Qed.

(** The card [updateMarcationCards] leaves in the place of [card]. *)
Definition renderCard (attendance : JsValue) (card : Card) : Card :=
  reassignCard match updateCard attendance card with
               | Normal card' => card'
               | Throw _ => resetClasses card
               end.

Lemma forEachCard_map callback render cards :
  (forall card, callback card = Normal (render card)) ->
  forEachCard callback cards = (map render cards, Normal tt).
Proof.
  intros Hcallback. induction cards as [|card rest IH]; simpl; [reflexivity |].
  rewrite Hcallback, IH. reflexivity.
Qed.

Lemma updateMarcationCards_render attendance cards :
  nullish attendance = false ->
  updateMarcationCards attendance cards = (map (renderCard attendance) cards, Normal tt).
Proof.
  intros Hrec. unfold updateMarcationCards.
  rewrite (forEachCard_map (updateCard attendance)
             (fun card => match updateCard attendance card with
                          | Normal card' => card'
                          | Throw _ => resetClasses card
                          end)).
  - unfold reassignCardEvents. rewrite map_map. reflexivity.
  - intros card. destruct (updateCard_record attendance card Hrec) as [card' ->].
    reflexivity.
Qed.

Lemma renderCard_known attendance t card :
  nullish attendance = false ->
  dataType card = cardType t ->
  renderCard attendance card
  = reassignCard (paintVerdict attendance t (resetClasses card)).
Proof.
  intros Hrec Htype. unfold renderCard.
  rewrite (updateCard_paints attendance t card Hrec Htype). reflexivity.
Qed.

(** X1: a punch whose time is recorded is shown as completed with that
    time, whatever the other fields are, and its card is inert: no click
    listener, default cursor.  A card reads as completed only then. *)
Theorem recorded_punch_is_completed attendance t card :
  nullish attendance = false ->
  dataType card = cardType t ->
  (isSet attendance (ownField t) = true ->
   evaluate attendance card
   = Normal (Some (Completed (textContent (prop attendance (ownField t))))) /\
   cardTime (renderCard attendance card) = textContent (prop attendance (ownField t)) /\
   cardStatus (renderCard attendance card) = "✅ Completado" /\
   onClick (renderCard attendance card) = false /\
   cursor (renderCard attendance card) = "default") /\
  (forall time, evaluate attendance card = Normal (Some (Completed time)) ->
                isSet attendance (ownField t) = true).
Proof.
  intros Hrec Htype. split.
  - intros Hset.
    rewrite (evaluate_record attendance t card Hrec Htype).
    rewrite (renderCard_known attendance t card Hrec Htype).
    rewrite onClick_reassignCard, cursor_reassignCard.
    destruct (texts_reassignCard (paintVerdict attendance t (resetClasses card)))
      as (-> & -> & _).
    destruct (classes_paintVerdict attendance t card) as (Hc & Ha & _).
    cbv zeta in Hc, Ha. rewrite Hc, Ha.
    rewrite (verdict_ownField attendance t Hset).
    unfold paintVerdict. rewrite (verdict_ownField attendance t Hset).
    repeat split.
  - intros time. rewrite (evaluate_record attendance t card Hrec Htype).
    intros H. injection H as H.
    exact (proj1 (verdict_completed attendance t time H)).
Qed.

Definition afterBreak : JsValue :=
  JObject [("horaentrada", JString "08:00");
           ("horaRefrigerioInicio", JString "12:00");
           ("horaRefrigerioFin", JString "13:00")].

Lemma recorded_punch_is_completed_witness :
  evaluate afterBreak (freshCard "Salida de Refrigerio")
  = Normal (Some (Completed "13:00")) /\
  onClick (renderCard afterBreak (freshCard "Salida de Refrigerio")) = false.
Proof.
  destruct (recorded_punch_is_completed afterBreak BreakEnd
              (freshCard "Salida de Refrigerio") eq_refl eq_refl) as [Hset _].
  destruct (Hset eq_refl) as (Heval & _ & _ & Hclick & _).
  split; assumption.
Defined.

(** When a punch can be marked, as a function of the four fields. *)
Definition canMark (attendance : JsValue) (t : PunchType) : bool :=
  let entry := isSet attendance "horaentrada" in
  let breakStart := isSet attendance "horaRefrigerioInicio" in
  let breakEnd := isSet attendance "horaRefrigerioFin" in
  let exit := isSet attendance "horasalida" in
  match t with
  | Entry => negb entry
  | BreakStart => negb breakStart && entry && negb exit
  | BreakEnd => negb breakEnd && breakStart && negb exit
  | Exit => negb exit && entry && (negb breakStart || breakEnd)
  end.

Lemma verdict_available attendance t :
  verdict attendance t = Available <-> canMark attendance t = true.
Proof.
  unfold verdict, canMark. destruct t; simpl;
    repeat match goal with
      | |- context [isSet ?a ?f] => destruct (isSet a f); simpl
      end; split; intros H; try discriminate H; reflexivity.
Qed.

(** X2: when each card can be clicked.  Entry while no entry is recorded;
    BreakStart after the entry, before the exit, once; BreakEnd after the
    break start, before the exit, once; Exit after the entry, once, and
    not during a break.  The card reads as available, carries the click
    listener and shows the pointer cursor exactly then. *)
Theorem availability_conditions attendance t card :
  nullish attendance = false ->
  dataType card = cardType t ->
  (evaluate attendance card = Normal (Some Available) <-> canMark attendance t = true) /\
  (onClick (renderCard attendance card) = true <-> canMark attendance t = true) /\
  (cursor (renderCard attendance card) = "pointer" <-> canMark attendance t = true).
Proof.
  intros Hrec Htype.
  rewrite (evaluate_record attendance t card Hrec Htype).
  rewrite (renderCard_known attendance t card Hrec Htype).
  rewrite onClick_reassignCard, cursor_reassignCard.
  destruct (classes_paintVerdict attendance t card) as (Hc & Ha & _).
  cbv zeta in Hc, Ha. rewrite Hc, Ha.
  rewrite <- (verdict_available attendance t).
  destruct (verdict attendance t); repeat split; intros H;
    try discriminate H; try reflexivity; try (injection H as H; discriminate H).
Qed.

Lemma availability_conditions_witness :
  evaluate afterBreak (freshCard "Salida") = Normal (Some Available) /\
  onClick (renderCard afterBreak (freshCard "Salida")) = true.
Proof.
  destruct (availability_conditions afterBreak Exit (freshCard "Salida")
              eq_refl eq_refl) as (Heval & Hclick & _).
  split; [apply Heval | apply Hclick]; reflexivity.
Defined.

(** X3: during a break (break start recorded, break end and exit not) the
    BreakStart card is completed, the BreakEnd card is available, and the
    Exit card is blocked: with 'Termine refrigerio primero' when the entry
    is recorded, with 'Requiere ingreso' when it is not. *)
Theorem break_in_progress attendance t card :
  nullish attendance = false ->
  isSet attendance "horaRefrigerioInicio" = true ->
  isSet attendance "horaRefrigerioFin" = false ->
  isSet attendance "horasalida" = false ->
  dataType card = cardType t ->
  evaluate attendance card
  = Normal (Some match t with
                 | Entry =>
                     if isSet attendance "horaentrada"
                     then Completed (textContent (prop attendance "horaentrada"))
                     else Available
                 | BreakStart =>
                     Completed (textContent (prop attendance "horaRefrigerioInicio"))
                 | BreakEnd => Available
                 | Exit =>
                     Blocked (if isSet attendance "horaentrada"
                              then BreakInProgress else NoEntry)
                 end) /\
  (t = Exit ->
   cardStatus (renderCard attendance card)
   = if isSet attendance "horaentrada"
     then "Termine refrigerio primero" else "Requiere ingreso").
Proof.
  intros Hrec Hbs Hbe Hx Htype. split.
  - rewrite (evaluate_record attendance t card Hrec Htype).
    unfold verdict. rewrite Hbs, Hbe, Hx.
    destruct t; simpl; destruct (isSet attendance "horaentrada"); reflexivity.
  - intros ->. rewrite (renderCard_known attendance Exit card Hrec Htype).
    destruct (texts_reassignCard (paintVerdict attendance Exit (resetClasses card)))
      as (_ & -> & _).
    unfold paintVerdict, verdict. rewrite Hbs, Hbe, Hx. simpl.
    destruct (isSet attendance "horaentrada"); reflexivity.
Qed.

Definition onBreak : JsValue :=
  JObject [("horaentrada", JString "08:00"); ("horaRefrigerioInicio", JString "12:00")].

Lemma break_in_progress_witness :
  evaluate onBreak (freshCard "Salida") = Normal (Some (Blocked BreakInProgress)) /\
  evaluate onBreak (freshCard "Salida de Refrigerio") = Normal (Some Available).
Proof.
  split.
  - exact (proj1 (break_in_progress onBreak Exit (freshCard "Salida")
                    eq_refl eq_refl eq_refl eq_refl eq_refl)).
  - exact (proj1 (break_in_progress onBreak BreakEnd (freshCard "Salida de Refrigerio")
                    eq_refl eq_refl eq_refl eq_refl eq_refl)).
Defined.

(** ** Refreshing the cards *)

Definition stateClass (cls : string) : Prop :=
  cls = "available" \/ cls = "completed" \/ cls = "disabled".

Definition remove3 (classes : list string) : list string :=
  removeClass "disabled" (removeClass "completed" (removeClass "available" classes)).

Lemma removeClass_absent cls classes :
  contains cls classes = false -> removeClass cls classes = classes.
Proof.
  unfold contains, removeClass. intros H. apply bool_decide_eq_false_1 in H.
  induction classes as [|c rest IH]; [reflexivity |].
  apply not_elem_of_cons in H as [Hne Hrest].
  rewrite filter_cons_True by congruence. f_equal. apply IH, Hrest.
Qed.

Lemma remove3_free classes :
  contains "available" classes = false ->
  contains "completed" classes = false ->
  contains "disabled" classes = false ->
  remove3 classes = classes.
Proof.
  intros Ha Hc Hd. unfold remove3.
  rewrite (removeClass_absent "available") by assumption.
  rewrite (removeClass_absent "completed") by assumption.
  apply removeClass_absent, Hd.
Qed.

Lemma remove3_addClass cls classes :
  stateClass cls ->
  contains "available" classes = false ->
  contains "completed" classes = false ->
  contains "disabled" classes = false ->
  remove3 (addClass cls classes) = classes.
Proof.
  intros Hcls Ha Hc Hd.
  assert (Habsent : contains cls classes = false)
    by (destruct Hcls as [-> | [-> | ->]]; assumption).
  unfold addClass. unfold contains in Habsent. rewrite Habsent.
  unfold remove3, removeClass. rewrite !filter_app.
  fold (removeClass "available" classes).
  rewrite (removeClass_absent "available") by assumption.
  fold (removeClass "completed" classes).
  rewrite (removeClass_absent "completed") by assumption.
  fold (removeClass "disabled" classes).
  rewrite (removeClass_absent "disabled") by assumption.
  destruct Hcls as [-> | [-> | ->]]; apply app_nil_r.
Qed.

Lemma reassignCard_ext card1 card2 :
  dataType card1 = dataType card2 ->
  classList card1 = classList card2 ->
  cardTime card1 = cardTime card2 ->
  cardStatus card1 = cardStatus card2 ->
  statusColor card1 = statusColor card2 ->
  reassignCard card1 = reassignCard card2.
Proof.
  intros H1 H2 H3 H4 H5. unfold reassignCard; simpl.
  rewrite H1, H2, H3, H4, H5. reflexivity.
Qed.

Lemma resetClasses_free card :
  contains "available" (classList (resetClasses card)) = false /\
  contains "completed" (classList (resetClasses card)) = false /\
  contains "disabled" (classList (resetClasses card)) = false.
Proof. destruct (resetClasses_contains card) as (Hc & Ha & Hd). auto. Qed.

(** A second pass of the callback over a painted card. *)
Lemma repaint attendance t card :
  let painted := paintVerdict attendance t (resetClasses card) in
  classList (paintVerdict attendance t (resetClasses (reassignCard painted)))
  = classList painted.
Proof.
  destruct (resetClasses_free card) as (Ha & Hc & Hd).
  cbv zeta.
  assert (Hstep : forall cls time status color,
             stateClass cls ->
             classList (resetClasses (reassignCard
                          (paint cls time status color (resetClasses card))))
             = classList (resetClasses card)).
  { intros cls time status color Hcls.
    change (classList (resetClasses ?x)) with (remove3 (classList x)) at 1.
    destruct (texts_reassignCard (paint cls time status color (resetClasses card)))
      as (_ & _ & _ & ->).
    apply remove3_addClass; assumption. }
  unfold paintVerdict.
  destruct (verdict attendance t); unfold completed, available, disabled;
    unfold paint at 1; cbn [classList]; rewrite Hstep;
    try reflexivity; unfold stateClass; auto.
Qed.

Lemma dataType_paintVerdict attendance t card :
  dataType (paintVerdict attendance t card) = dataType card.
Proof. unfold paintVerdict. destruct (verdict attendance t); reflexivity. Qed.

Lemma texts_paintVerdict attendance t card1 card2 :
  cardTime (paintVerdict attendance t card1) = cardTime (paintVerdict attendance t card2) /\
  cardStatus (paintVerdict attendance t card1)
  = cardStatus (paintVerdict attendance t card2) /\
  statusColor (paintVerdict attendance t card1)
  = statusColor (paintVerdict attendance t card2).
Proof. unfold paintVerdict. destruct (verdict attendance t); auto. Qed.

Lemma renderCard_idempotent attendance card :
  nullish attendance = false ->
  renderCard attendance (renderCard attendance card) = renderCard attendance card.
Proof.
  intros Hrec. destruct (knownType (dataType card)) eqn:Hknown.
  - destruct (knownType_cardType _ Hknown) as [t Htype].
    rewrite (renderCard_known attendance t card Hrec Htype).
    set (painted := paintVerdict attendance t (resetClasses card)).
    assert (Hsame : dataType (reassignCard painted) = dataType card).
    { destruct (texts_reassignCard painted) as (_ & _ & -> & _).
      subst painted. rewrite dataType_paintVerdict. reflexivity. }
    assert (Htype' : dataType (reassignCard painted) = cardType t) by congruence.
    rewrite (renderCard_known attendance t _ Hrec Htype').
    pose proof (repaint attendance t card) as Hclasses. cbv zeta in Hclasses.
    fold painted in Hclasses.
    destruct (texts_paintVerdict attendance t
                (resetClasses (reassignCard painted)) (resetClasses card))
      as (Htime & Hstatus & Hcolor).
    apply reassignCard_ext; try assumption.
    rewrite dataType_paintVerdict, dataType_resetClasses, Hsame.
    subst painted. rewrite dataType_paintVerdict. reflexivity.
  - unfold renderCard. rewrite (updateCard_unknown attendance card Hknown).
    rewrite (updateCard_unknown attendance (reassignCard (resetClasses card)))
      by (destruct (texts_reassignCard (resetClasses card)) as (_ & _ & -> & _);
          exact Hknown).
    destruct (texts_reassignCard (resetClasses card)) as (Ht & Hs & Hd & Hc).
    destruct (resetClasses_free card) as (Hfa & Hfc & Hfd).
    apply reassignCard_ext.
    + rewrite dataType_resetClasses. exact Hd.
    + change (remove3 (classList (reassignCard (resetClasses card)))
              = classList (resetClasses card)).
      rewrite Hc. apply remove3_free; assumption.
    + exact Ht.
    + exact Hs.
    + unfold reassignCard; simpl.
      destruct (contains "available" _); reflexivity.
Qed.

(** X4: a refresh with the same record changes nothing: once
    [updateMarcationCards] has run, running it again on its own result
    with the same record gives the same cards (classes, texts, listeners
    and cursors). *)
Theorem refresh_is_idempotent attendance cards :
  nullish attendance = false ->
  updateMarcationCards attendance (fst (updateMarcationCards attendance cards))
  = updateMarcationCards attendance cards.
Proof.
  intros Hrec. rewrite !(updateMarcationCards_render _ _ Hrec). simpl.
  rewrite map_map. f_equal. apply map_ext. intros card.
  apply renderCard_idempotent, Hrec.
Qed.

Lemma refresh_is_idempotent_witness :
  updateMarcationCards onBreak (fst (updateMarcationCards onBreak dashboard))
  = updateMarcationCards onBreak dashboard.
Proof. exact (refresh_is_idempotent onBreak dashboard eq_refl). Defined.

(** What an update leaves of a card: its type and every class other than
    the three state classes. *)
Definition sameCard (card card' : Card) : Prop :=
  dataType card' = dataType card /\
  forall cls, ~ stateClass cls ->
    contains cls (classList card') = contains cls (classList card).

Lemma sameCard_refl card : sameCard card card.
Proof. split; reflexivity. Qed.

Lemma sameCard_reset card : sameCard card (resetClasses card).
Proof.
  split; [reflexivity |]. intros cls Hcls. unfold resetClasses; simpl.
  rewrite !contains_removeClass_other; [reflexivity | | |];
    intros ->; apply Hcls; unfold stateClass; auto.
Qed.

Lemma sameCard_paint cls time status color card :
  stateClass cls ->
  sameCard card (paint cls time status color (resetClasses card)).
Proof.
  intros Hstate. destruct (sameCard_reset card) as [Htype Hclasses].
  split; [exact Htype |]. intros other Hother. unfold paint; simpl.
  rewrite contains_addClass_other by (intros ->; contradiction).
  apply Hclasses, Hother.
Qed.

Lemma sameCard_updateCard attendance card card' :
  updateCard attendance card = Normal card' -> sameCard card card'.
Proof.
  intros H.
  destruct (updateCard_shape _ _ _ H) as [-> | [[time ->] | [-> | [status ->]]]].
  - apply sameCard_reset.
  - apply sameCard_paint. unfold stateClass; auto.
  - apply sameCard_paint. unfold stateClass; auto.
  - apply sameCard_paint. unfold stateClass; auto.
Qed.

Lemma sameCard_reassignCard card card' :
  sameCard card card' -> sameCard card (reassignCard card').
Proof.
  intros [Htype Hclasses].
  destruct (texts_reassignCard card') as (_ & _ & Ht & Hc).
  split; [congruence |]. intros cls Hcls. rewrite Hc. apply Hclasses, Hcls.
Qed.

Lemma forEachCard_sameCard attendance cards :
  Forall2 sameCard cards (fst (forEachCard (updateCard attendance) cards)).
Proof.
  induction cards as [|card rest IH]; simpl; [constructor |].
  destruct (updateCard attendance card) as [card'|e] eqn:Hcard.
  - destruct (forEachCard (updateCard attendance) rest) as [rest' c].
    simpl in *. constructor; [eapply sameCard_updateCard; eassumption | assumption].
  - simpl. constructor; [apply sameCard_reset |].
    clear. induction rest; constructor; [apply sameCard_refl | assumption].
Qed.

(** X5: whatever the record, also when the update throws,
    [updateMarcationCards] neither adds nor removes a card, keeps the type
    of every card, and touches no class other than 'available',
    'completed' and 'disabled'. *)
Theorem update_keeps_cards_and_foreign_classes attendance cards :
  Forall2 sameCard cards (fst (updateMarcationCards attendance cards)) /\
  length (fst (updateMarcationCards attendance cards)) = length cards.
Proof.
  assert (H : Forall2 sameCard cards (fst (updateMarcationCards attendance cards))).
  { unfold updateMarcationCards.
    pose proof (forEachCard_sameCard attendance cards) as Hall.
    destruct (forEachCard (updateCard attendance) cards) as [cards' [[]|e]];
      simpl in *; [| assumption].
    unfold reassignCardEvents.
    induction Hall; simpl; constructor;
      [apply sameCard_reassignCard; assumption | assumption]. }
  split; [exact H |]. symmetry. eapply Forall2_length, H.
Qed.

(** X6: with [null] or [undefined] for the record, the update stops at the
    first card of one of the four types: the cards before it (of other
    types) and that card lose their state classes, the cards after it are
    untouched, [reassignCardEvents] does not run, so that every card keeps
    the listener it had, and a TypeError is thrown. *)
Theorem null_record_stops_at_first_known_card attendance before card after :
  nullish attendance = true ->
  Forall (fun c => knownType (dataType c) = false) before ->
  knownType (dataType card) = true ->
  exists message,
    updateMarcationCards attendance (before ++ card :: after)
    = (map resetClasses before ++ resetClasses card :: after,
       Throw (TypeError message)) /\
    map onClick (fst (updateMarcationCards attendance (before ++ card :: after)))
    = map onClick (before ++ card :: after).
Proof.
  intros Hnull Hbefore Hknown.
  destruct (knownType_cardType _ Hknown) as [t Htype].
  destruct (updateCard_nullish attendance t card Hnull Htype) as [message Hthrow].
  exists message.
  assert (Hrun : forEachCard (updateCard attendance) (before ++ card :: after)
                 = (map resetClasses before ++ resetClasses card :: after,
                    Throw (TypeError message))).
  { induction Hbefore as [|c rest Hc _ IH]; simpl.
    - rewrite Hthrow. reflexivity.
    - rewrite (updateCard_unknown attendance c Hc), IH. reflexivity. }
  unfold updateMarcationCards. rewrite Hrun. split; [reflexivity |]. simpl.
  rewrite !map_app, map_map. reflexivity.
Qed.

Lemma null_record_stops_at_first_known_card_witness :
  exists message,
    updateMarcationCards JUndefined (freshCard "Anuncio" :: dashboard)
    = (resetClasses (freshCard "Anuncio")
         :: resetClasses (freshCard "Ingreso") :: tail dashboard,
       Throw (TypeError message)).
Proof.
  destruct (null_record_stops_at_first_known_card JUndefined
              [freshCard "Anuncio"] (freshCard "Ingreso") (tail dashboard)
              eq_refl ltac:(constructor; [reflexivity | constructor]) eq_refl)
    as (message & Hrun & _).
  exists message. exact Hrun.
Defined.

(** ** Loading the attendance of the day *)

(** What a reload leaves of the session: the selection, the two flags and
    the submissions sent so far. *)
Definition sameSession (app app' : MarcacionApp) : Prop :=
  currentMarcationType app' = currentMarcationType app /\
  isProcessing app' = isProcessing app /\
  connectionStatus app' = connectionStatus app /\
  submissions app' = submissions app.

Lemma sameSession_refl app : sameSession app app.
Proof. repeat split. Qed.

Lemma sameSession_trans app1 app2 app3 :
  sameSession app1 app2 -> sameSession app2 app3 -> sameSession app1 app3.
Proof.
  intros (H1 & H2 & H3 & H4) (K1 & K2 & K3 & K4).
  repeat split; congruence.
Qed.

Lemma sameSession_emit e app :
  isSubmission e = false -> sameSession app (emit e app).
Proof.
  intros He. repeat split. unfold submissions, emit; simpl.
  rewrite List.filter_app. simpl. rewrite He. apply app_nil_r.
Qed.

Lemma sameSession_setCards cs app : sameSession app (setCards cs app).
Proof. repeat split. Qed.

(** The three ways a reload fails before the cards are touched. *)
Definition loadFails (today : Completion Response) : bool :=
  match today with
  | Throw _ => true
  | Normal response => negb (ok response) || negb (isNormal (json response))
  end.

Definition loadError : Effect :=
  ShowMessage "Error cargando marcaciones del día" "error".

Definition todayRequest : Effect := Fetch "GET" "/api/attendance/today" JUndefined.

Lemma loadTodayAttendance_fails today app :
  loadFails today = true ->
  loadTodayAttendance today app = emit loadError (emit todayRequest app).
Proof.
  unfold loadFails, loadTodayAttendance.
  destruct today as [response|e]; [| reflexivity].
  destruct (ok response); simpl; [| reflexivity].
  destruct (json response); simpl; [discriminate | reflexivity].
Qed.

Lemma loadTodayAttendance_record response attendance app :
  ok response = true ->
  json response = Normal attendance ->
  nullish attendance = false ->
  loadTodayAttendance (Normal response) app
  = setCards (map (renderCard attendance) (cards app)) (emit todayRequest app).
Proof.
  intros Hok Hjson Hrec. unfold loadTodayAttendance.
  rewrite Hok, Hjson. simpl.
  rewrite (updateMarcationCards_render attendance (cards app) Hrec). reflexivity.
Qed.

Lemma sameSession_loadTodayAttendance today app :
  sameSession app (loadTodayAttendance today app).
Proof.
  assert (Hsent : sameSession app (emit todayRequest app))
    by (apply sameSession_emit; reflexivity).
  assert (Hfail : sameSession app (emit loadError (emit todayRequest app))).
  { apply (sameSession_trans _ _ _ Hsent). apply sameSession_emit. reflexivity. }
  unfold loadTodayAttendance.
  destruct today as [response|e]; [| exact Hfail].
  destruct (ok response); simpl; [| exact Hfail].
  destruct (json response) as [attendance|e]; [| exact Hfail].
  fold todayRequest. fold (emit todayRequest app).
  destruct (updateMarcationCards attendance _) as [cards' [[]|e]].
  - apply (sameSession_trans _ _ _ Hsent). apply sameSession_setCards.
  - apply (sameSession_trans _ _ _ Hsent).
    apply (sameSession_trans _ (setCards cards' (emit todayRequest app)));
      [apply sameSession_setCards |].
    apply sameSession_emit. reflexivity.
Qed.

(** X7: the outcomes of [loadTodayAttendance].  When the fetch rejects,
    the response is not ok, or its body is not JSON, the cards stay
    exactly as they were and the one message 'Error cargando marcaciones
    del día' is shown.  When the response is ok and carries a readable
    record, every card is rendered from that record and no message is
    shown. *)
Theorem load_outcomes today app :
  (loadFails today = true ->
   cards (loadTodayAttendance today app) = cards app /\
   effects (loadTodayAttendance today app) = effects app ++ [todayRequest; loadError]) /\
  (forall response attendance,
     today = Normal response ->
     ok response = true ->
     json response = Normal attendance ->
     nullish attendance = false ->
     cards (loadTodayAttendance today app) = map (renderCard attendance) (cards app) /\
     effects (loadTodayAttendance today app) = effects app ++ [todayRequest]).
Proof.
  split.
  - intros Hfail. rewrite (loadTodayAttendance_fails today app Hfail).
    split; [reflexivity |]. unfold emit; simpl. rewrite <- app_assoc. reflexivity.
  - intros response attendance -> Hok Hjson Hrec.
    rewrite (loadTodayAttendance_record response attendance app Hok Hjson Hrec).
    split; reflexivity.
Qed.

Lemma load_outcomes_witness :
  cards (loadTodayAttendance (Normal (mkResponse false (Normal onBreak))) morning)
  = cards morning /\
  cards (loadTodayAttendance (okJson onBreak) morning)
  = map (renderCard onBreak) (cards morning).
Proof.
  split.
  - exact (proj1 (proj1 (load_outcomes (Normal (mkResponse false (Normal onBreak)))
                            morning) eq_refl)).
  - exact (proj1 (proj2 (load_outcomes (okJson onBreak) morning)
                    (mkResponse true (Normal onBreak)) onBreak
                    eq_refl eq_refl eq_refl eq_refl)).
Defined.

(** X8: no refresh touches the session.  The interval tick, the
    visibility listener and [refresh()] leave the selected punch type, the
    processing flag and the connection flag as they are and send no
    submission; the tick does nothing at all while a submission is being
    processed or the page is hidden, the visibility listener nothing while
    the page is hidden. *)
Theorem refresh_keeps_session hidden today app :
  sameSession app (autoRefreshTick hidden today app) /\
  sameSession app (onVisibilityChange hidden today app) /\
  sameSession app (refresh today app) /\
  (isProcessing app || hidden = true -> autoRefreshTick hidden today app = app) /\
  (hidden = true -> onVisibilityChange hidden today app = app).
Proof.
  unfold autoRefreshTick, onVisibilityChange, refresh.
  split; [| split; [| split; [| split]]].
  - destruct (negb (isProcessing app) && negb hidden);
      [apply sameSession_loadTodayAttendance | apply sameSession_refl].
  - destruct (negb hidden);
      [apply sameSession_loadTodayAttendance | apply sameSession_refl].
  - apply sameSession_loadTodayAttendance.
  - intros H. destruct (isProcessing app), hidden; try discriminate H; reflexivity.
  - intros ->. reflexivity.
Qed.

(** ** Processing a scan *)

(** The scan is accepted: nothing is being processed and a type is
    selected. *)
Definition accepted (app : MarcacionApp) : bool :=
  negb (isProcessing app || noTypeSelected (currentMarcationType app)).

Lemma accepted_selected app :
  accepted app = true ->
  isProcessing app = false /\
  exists type, currentMarcationType app = Some type /\ type <> "".
Proof.
  unfold accepted, noTypeSelected. intros H.
  apply negb_true_iff, orb_false_iff in H as [Hproc Htype].
  split; [exact Hproc |].
  destruct (currentMarcationType app) as [type|]; [| discriminate Htype].
  exists type. split; [reflexivity |]. apply String.eqb_neq, Htype.
Qed.

(** The application when the POST has been sent. *)
Definition sent (qrCode : string) (app : MarcacionApp) : MarcacionApp :=
  emit (Fetch "POST" "/api/attendance/mark"
          (JObject [("qrCode", JString qrCode);
                    ("marcationType", JString (default "" (currentMarcationType app)))]))
    (showMessage "Procesando marcación..." "info"
       (showLoading true (setIsProcessing true app))).

(** The [catch] and [finally] blocks. *)
Definition settle (outcome : MarcacionApp * Completion unit) : MarcacionApp :=
  let (app, c) := outcome in
  let app :=
    match c with
    | Normal _ => app
    | Throw _ =>
        if negb (connectionStatus app)
        then showMessage "Sin conexión al servidor" "error" app
        else showMessage "Error de comunicación con el servidor" "error" app
    end in
  setCurrentMarcationType None (showLoading false (setIsProcessing false app)).

Lemma processQRCode_accepted post today qrCode app :
  accepted app = true ->
  processQRCode post today qrCode app
  = settle (afterPost post today (sent qrCode app)).
Proof.
  unfold accepted. intros H. apply negb_true_iff in H.
  unfold processQRCode. rewrite H. unfold settle, sent.
  destruct (afterPost post today _). reflexivity.
Qed.

Lemma processQRCode_refused post today qrCode app :
  accepted app = false ->
  processQRCode post today qrCode app
  = showMessage "Selecciona un tipo de marcación primero" "error" app.
Proof.
  unfold accepted. intros H. apply negb_false_iff in H.
  unfold processQRCode. rewrite H. reflexivity.
Qed.

Lemma sameSession_afterPost post today app :
  sameSession app (fst (afterPost post today app)).
Proof.
  unfold afterPost.
  destruct post as [response|e]; [| apply sameSession_refl].
  destruct (json response) as [result|e]; [| apply sameSession_refl].
  destruct (ok response).
  - destruct (getProp result "message") as [message|e]; [| apply sameSession_refl].
    simpl.
    set (app1 := showMessage (textContent message) "success" app).
    set (app2 := loadTodayAttendance today app1).
    assert (H1 : sameSession app app1) by (apply sameSession_emit; reflexivity).
    assert (H2 : sameSession app1 app2) by apply sameSession_loadTodayAttendance.
    assert (H3 : sameSession app2 (emit ClearQrInput app2))
      by (apply sameSession_emit; reflexivity).
    assert (H4 : sameSession (emit ClearQrInput app2)
                   (emit CelebrateSuccess (emit ClearQrInput app2)))
      by (apply sameSession_emit; reflexivity).
    exact (sameSession_trans _ _ _ H1
             (sameSession_trans _ _ _ H2 (sameSession_trans _ _ _ H3 H4))).
  - destruct (getProp result "error") as [error|e]; [| apply sameSession_refl].
    simpl. apply sameSession_emit. reflexivity.
Qed.

Lemma settle_session outcome :
  isProcessing (settle outcome) = false /\
  currentMarcationType (settle outcome) = None /\
  connectionStatus (settle outcome) = connectionStatus (fst outcome) /\
  submissions (settle outcome) = submissions (fst outcome) /\
  cards (settle outcome) = cards (fst outcome).
Proof.
  destruct outcome as [app [[]|e]]; unfold settle; simpl.
  - repeat split. unfold submissions; simpl.
    rewrite List.filter_app. simpl. apply app_nil_r.
  - destruct (connectionStatus app) eqn:Hconn; simpl; rewrite ?Hconn; repeat split;
      unfold submissions; simpl; rewrite !List.filter_app; simpl;
      rewrite !app_nil_r; reflexivity.
Qed.

Lemma scan_releases_the_flag_aux post today qrCode app :
  accepted app = true ->
  isProcessing (processQRCode post today qrCode app) = false /\
  currentMarcationType (processQRCode post today qrCode app) = None.
Proof.
  intros Hacc. rewrite (processQRCode_accepted post today qrCode app Hacc).
  destruct (settle_session (afterPost post today (sent qrCode app)))
    as (Hp & Ht & _). split; assumption.
Qed.

(** X9: [processQRCode] releases what it takes.  On every path, whatever
    the network does, the processing flag is afterwards what it was before
    the call (false after an accepted scan, untouched by a refused one)
    and the connection flag is unchanged; an accepted scan clears the
    selected type, a refused one keeps it. *)
Theorem scan_releases_the_flag post today qrCode app :
  isProcessing (processQRCode post today qrCode app) = isProcessing app /\
  connectionStatus (processQRCode post today qrCode app) = connectionStatus app /\
  currentMarcationType (processQRCode post today qrCode app)
  = if accepted app then None else currentMarcationType app.
Proof.
  destruct (accepted app) eqn:Hacc.
  - rewrite (processQRCode_accepted post today qrCode app Hacc).
    destruct (settle_session (afterPost post today (sent qrCode app)))
      as (Hp & Ht & Hc & _).
    destruct (sameSession_afterPost post today (sent qrCode app)) as (_ & _ & Hc' & _).
    destruct (accepted_selected app Hacc) as [Hproc _].
    rewrite Hp, Ht, Hc, Hc', Hproc. repeat split.
  - rewrite (processQRCode_refused post today qrCode app Hacc). repeat split.
Qed.

Definition unreachablePost : Completion Response :=
  Throw (TypeError "Failed to fetch").

(** X10: one selection, at most one submission.  An accepted scan sends
    exactly one POST, carrying the scanned code and the selected type, and
    a scan that follows it without a new selection sends none. *)
Theorem one_selection_one_submission post today qrCode app post' today' qrCode' :
  accepted app = true ->
  submissions (processQRCode post today qrCode app)
  = submissions app
    ++ [ Fetch "POST" "/api/attendance/mark"
           (JObject [("qrCode", JString qrCode);
                     ("marcationType",
                      JString (default "" (currentMarcationType app)))]) ] /\
  submissions (processQRCode post' today' qrCode'
                 (processQRCode post today qrCode app))
  = submissions (processQRCode post today qrCode app).
Proof.
  intros Hacc. split.
  - rewrite (processQRCode_accepted post today qrCode app Hacc).
    destruct (settle_session (afterPost post today (sent qrCode app)))
      as (_ & _ & _ & -> & _).
    destruct (sameSession_afterPost post today (sent qrCode app)) as (_ & _ & _ & ->).
    unfold sent, submissions, emit, showMessage, showLoading, emit; simpl.
    rewrite !List.filter_app. simpl. rewrite !app_nil_r. reflexivity.
  - set (app1 := processQRCode post today qrCode app).
    assert (Hrefused : accepted app1 = false).
    { unfold accepted.
      destruct (scan_releases_the_flag_aux post today qrCode app Hacc) as [_ Hnone].
      fold app1 in Hnone. rewrite Hnone. simpl. rewrite orb_true_r. reflexivity. }
    rewrite (processQRCode_refused post' today' qrCode' app1 Hrefused).
    unfold submissions, showMessage, emit; simpl.
    rewrite List.filter_app. simpl. apply app_nil_r.
Qed.

Lemma one_selection_one_submission_witness :
  submissions (processQRCode unreachablePost unreachablePost "QR-2"
                 (processQRCode unreachablePost unreachablePost "QR-1" selected))
  = [ Fetch "POST" "/api/attendance/mark"
        (JObject [("qrCode", JString "QR-1"); ("marcationType", JString "Ingreso")]) ].
Proof.
  destruct (one_selection_one_submission unreachablePost unreachablePost "QR-1"
              selected unreachablePost unreachablePost "QR-2" eq_refl) as [Hone Hnone].
  rewrite Hnone, Hone. reflexivity.
Defined.

(** The submission does not succeed: the fetch rejects, the body of the
    response is not JSON, or the response is not ok. *)
Definition submissionFails (post : Completion Response) : bool :=
  match post with
  | Throw _ => true
  | Normal response =>
      match json response with
      | Throw _ => true
      | Normal _ => negb (ok response)
      end
  end.

(** The message of a failed submission. *)
Definition failureMessage (post : Completion Response) (connected : bool) : string :=
  let thrown := if negb connected then "Sin conexión al servidor"
                else "Error de comunicación con el servidor" in
  match post with
  | Throw _ => thrown
  | Normal response =>
      match json response with
      | Throw _ => thrown
      | Normal result =>
          match getProp result "error" with
          | Throw _ => thrown
          | Normal error =>
              if truthy error then textContent error else "Error procesando marcación"
          end
      end
  end.

(** X11: a submission that does not succeed changes no card and triggers
    no reload: after the POST the page shows one error message and hides
    the loading overlay.  The message is the [error] text of the server
    when its answer carries one, 'Error procesando marcación' when it
    carries none, and, when the fetch or the reading of the answer throws,
    'Sin conexión al servidor' or 'Error de comunicación con el servidor'
    according to the connection flag. *)
Theorem failed_submission_changes_no_card post today qrCode app :
  accepted app = true ->
  submissionFails post = true ->
  cards (processQRCode post today qrCode app) = cards app /\
  effects (processQRCode post today qrCode app)
  = effects (sent qrCode app)
    ++ [ ShowMessage (failureMessage post (connectionStatus app)) "error";
         ShowLoading false ].
Proof.
  intros Hacc Hfail.
  rewrite (processQRCode_accepted post today qrCode app Hacc).
  unfold submissionFails in Hfail. unfold afterPost, failureMessage.
  destruct post as [response|e].
  - destruct (json response) as [result|e].
    + apply negb_true_iff in Hfail. rewrite Hfail.
      destruct (getProp result "error") as [error|e]; unfold settle; simpl.
      * split; [reflexivity |]. rewrite <- !app_assoc. reflexivity.
      * destruct (connectionStatus app); simpl;
          (split; [reflexivity |]); rewrite <- !app_assoc; reflexivity.
    + unfold settle; simpl. destruct (connectionStatus app); simpl;
        (split; [reflexivity |]); rewrite <- !app_assoc; reflexivity.
  - unfold settle; simpl. destruct (connectionStatus app); simpl;
      (split; [reflexivity |]); rewrite <- !app_assoc; reflexivity.
Qed.

Definition rejectedPost : Completion Response :=
  Normal (mkResponse false (Normal (JObject [("error", JString "QR no válido")]))).

Lemma failed_submission_changes_no_card_witness :
  cards (processQRCode rejectedPost (okJson entryAt0800) "QR-1" selected)
  = cards selected /\
  effects (processQRCode rejectedPost (okJson entryAt0800) "QR-1" selected)
  = effects (sent "QR-1" selected)
    ++ [ShowMessage "QR no válido" "error"; ShowLoading false].
Proof.
  exact (failed_submission_changes_no_card rejectedPost (okJson entryAt0800)
           "QR-1" selected eq_refl eq_refl).
Defined.

(** X12: a successful submission shows the message of the server, reloads
    the attendance and renders every card from the reloaded record; when
    the reload fails, the cards stay as they were and the error of the
    reload follows the success message.  In both cases the QR input is
    cleared and the success is celebrated. *)
Theorem successful_submission_reloads post today qrCode app response result :
  accepted app = true ->
  post = Normal response ->
  ok response = true ->
  json response = Normal result ->
  nullish result = false ->
  (forall reloaded attendance,
     today = Normal reloaded ->
     ok reloaded = true ->
     json reloaded = Normal attendance ->
     nullish attendance = false ->
     cards (processQRCode post today qrCode app)
     = map (renderCard attendance) (cards app) /\
     effects (processQRCode post today qrCode app)
     = effects (sent qrCode app)
       ++ [ ShowMessage (textContent (prop result "message")) "success";
            todayRequest; ClearQrInput; CelebrateSuccess; ShowLoading false ]) /\
  (loadFails today = true ->
   cards (processQRCode post today qrCode app) = cards app /\
   effects (processQRCode post today qrCode app)
   = effects (sent qrCode app)
     ++ [ ShowMessage (textContent (prop result "message")) "success";
          todayRequest; loadError; ClearQrInput; CelebrateSuccess; ShowLoading false ]).
Proof.
  intros Hacc -> Hok Hjson Hrec.
  rewrite (processQRCode_accepted _ today qrCode app Hacc).
  unfold afterPost. rewrite Hjson, Hok, (getProp_record result "message" Hrec).
  split.
  - intros reloaded attendance -> Hok' Hjson' Hrec'.
    rewrite (loadTodayAttendance_record reloaded attendance _ Hok' Hjson' Hrec').
    unfold settle; simpl. split; [reflexivity |].
    rewrite <- !app_assoc. reflexivity.
  - intros Hfail. rewrite (loadTodayAttendance_fails today _ Hfail).
    unfold settle; simpl. split; [reflexivity |].
    rewrite <- !app_assoc. reflexivity.
Qed.

Definition registeredPost : Completion Response :=
  okJson (JObject [("message", JString "Ingreso registrado"); ("time", JString "08:00")]).

Lemma successful_submission_reloads_witness :
  cards (processQRCode registeredPost (okJson entryAt0800) "QR-1" selected)
  = map (renderCard entryAt0800) (cards selected) /\
  cards (processQRCode registeredPost unreachablePost "QR-1" selected)
  = cards selected.
Proof.
  destruct (successful_submission_reloads registeredPost (okJson entryAt0800)
              "QR-1" selected _ _ eq_refl eq_refl eq_refl eq_refl eq_refl)
    as [Hreload _].
  destruct (successful_submission_reloads registeredPost unreachablePost
              "QR-1" selected _ _ eq_refl eq_refl eq_refl eq_refl eq_refl)
    as [_ Hstale].
  split.
  - exact (proj1 (Hreload _ _ eq_refl eq_refl eq_refl eq_refl)).
  - exact (proj1 (Hstale eq_refl)).
Defined.

(** ** The connection check *)

(** X13: [checkConnection] ends normally exactly when the health request
    resolves with an ok response; exactly then it leaves the connection
    flag set and the indicator reading 'Conectado'.  Otherwise the flag is
    cleared, the indicator reads 'Sin conexión' and the call throws.  In
    both cases it touches neither the cards nor the selection nor the
    processing flag, and sends no submission. *)
Theorem connection_check_outcomes health app :
  let healthy := match health with
                 | Normal response => ok response
                 | Throw _ => false
                 end in
  let '(app', indicator, outcome) := checkConnection health app in
  isNormal outcome = healthy /\
  connectionStatus app' = healthy /\
  indicator = updateConnectionStatus healthy /\
  (statusText indicator = "Conectado" <-> healthy = true) /\
  cards app' = cards app /\
  currentMarcationType app' = currentMarcationType app /\
  isProcessing app' = isProcessing app /\
  submissions app' = submissions app /\
  effects app' = effects app ++ [Fetch "GET" "/api/health" JUndefined].
Proof.
  assert (Hsub : submissions (emit (Fetch "GET" "/api/health" JUndefined) app)
                 = submissions app).
  { unfold submissions, emit; simpl. rewrite List.filter_app. simpl. apply app_nil_r. }
  unfold checkConnection. destruct health as [response|e]; simpl.
  - destruct (ok response); simpl; repeat split; try exact Hsub; discriminate.
  - repeat split; try exact Hsub; discriminate.
Qed.

End PageProperties.

(** * Further properties of the service worker *)
Section RouterProperties.

Import Worker.

Variable location_origin : string.
Variable getOfflineHTML : string.
Variable fetch : Request -> Completion Response.
Variable fetchUsesBody : bool.

Local Abbreviation resolve := (Worker.resolve location_origin).
Local Abbreviation offlinePage := (Worker.offlinePage getOfflineHTML).
Local Abbreviation fetchAll := (Worker.fetchAll location_origin fetch).
Local Abbreviation install := (Worker.install location_origin getOfflineHTML fetch).
Local Abbreviation handler := (Worker.handler location_origin fetch fetchUsesBody).
Local Abbreviation fetchListener := (Worker.fetchListener location_origin).
Local Abbreviation dispatchFetch := (Worker.dispatchFetch location_origin fetch fetchUsesBody).

(** ** What a request writes *)

Lemma cachesMatch_snoc_empty key name (caches : CacheStorage) :
  cachesMatch key (caches ++ [(name, ∅)])%list = cachesMatch key caches.
Proof.
  induction caches as [|[n cache] rest IH]; simpl.
  - rewrite lookup_empty. reflexivity.
  - destruct (cache !! key); [reflexivity | exact IH].
Qed.

Lemma cachesMatch_cachesOpen key name (caches : CacheStorage) :
  cachesMatch key (cachesOpen name caches) = cachesMatch key caches.
Proof.
  unfold cachesOpen. destruct (cachesHas name caches); [reflexivity |].
  apply cachesMatch_snoc_empty.
Qed.

Lemma cachesMatch_putIn_other key name k response (caches : CacheStorage) :
  key <> k ->
  cachesMatch key (putIn name k response caches) = cachesMatch key caches.
Proof.
  intros Hne. induction caches as [|[n cache] rest IH]; simpl; [reflexivity |].
  destruct (String.eqb n name); simpl.
  - rewrite lookup_insert_ne by congruence. reflexivity.
  - rewrite IH. reflexivity.
Qed.

Lemma cachesMatch_cachePut_other key name k response (caches : CacheStorage) :
  key <> k ->
  cachesMatch key (cachePut name k response caches) = cachesMatch key caches.
Proof.
  intros Hne. unfold cachePut.
  rewrite cachesMatch_putIn_other, cachesMatch_cachesOpen by assumption. reflexivity.
Qed.

Lemma cachesMatch_putIn_same name k response (caches : CacheStorage) :
  is_Some (cachesMatch k caches) ->
  is_Some (cachesMatch k (putIn name k response caches)).
Proof.
  induction caches as [|[n cache] rest IH]; simpl; [auto |].
  intros Hsome. destruct (String.eqb n name); simpl.
  - rewrite lookup_insert_eq. eauto.
  - destruct (cache !! k); [eauto | apply IH, Hsome].
Qed.

Lemma cachesMatch_cachePut_same name k response (caches : CacheStorage) :
  is_Some (cachesMatch k caches) ->
  is_Some (cachesMatch k (cachePut name k response caches)).
Proof.
  intros Hsome. unfold cachePut. apply cachesMatch_putIn_same.
  rewrite cachesMatch_cachesOpen. exact Hsome.
Qed.

Lemma cachePut_stores_aux name key response (caches : CacheStorage) :
  cachesMatch key (cachesOpen name caches) = None ->
  cachesMatch key (putIn name key response (cachesOpen name caches)) = Some response.
Proof.
  intros Hmiss. apply putIn_stores; [exact Hmiss |].
  unfold cachesOpen. destruct (cachesHas name caches) eqn:Hhas.
  - apply bool_decide_eq_true_1 in Hhas. exact Hhas.
  - unfold cachesKeys. rewrite map_app. apply elem_of_app. right. simpl. constructor.
Qed.

Lemma cachePut_matched name key response (caches : CacheStorage) :
  is_Some (cachesMatch key (cachePut name key response caches)).
Proof.
  destruct (cachesMatch key caches) eqn:Hbefore.
  - apply cachesMatch_cachePut_same. rewrite Hbefore. eauto.
  - unfold cachePut. rewrite cachePut_stores_aux; [eauto |].
    rewrite cachesMatch_cachesOpen. exact Hbefore.
Qed.

(** A cache that is listed first is the one [caches.match] reads first. *)
Lemma cachesMatch_cachePut_head name key response (caches : CacheStorage) :
  head (cachesKeys caches) = Some name ->
  cachesMatch key (cachePut name key response caches) = Some response /\
  head (cachesKeys (cachePut name key response caches)) = Some name.
Proof.
  destruct caches as [|[n cache] rest]; simpl; [discriminate |].
  intros H. injection H as ->.
  unfold cachePut, cachesOpen, cachesHas. simpl.
  rewrite bool_decide_eq_true_2 by constructor.
  simpl. rewrite String.eqb_refl. simpl. rewrite lookup_insert_eq. auto.
Qed.

(** The writes of a strategy: none, or the ok response of the network for
    the request, stored under its URL in the current cache. *)
Definition writes (request : Request) (caches caches' : CacheStorage) : Prop :=
  caches' = caches \/
  exists response,
    fetch request = Normal response /\ ok response = true /\
    caches' = cachePut CACHE_NAME (url request) response caches.

Lemma handler_writes s request caches :
  writes request caches (snd (handler s request caches)) /\
  (s = NetworkOnlyWithFallback \/ s = HandleOfflineMarking ->
   snd (handler s request caches) = caches).
Proof.
  unfold writes. destruct s; simpl.
  - unfold Worker.networkOnlyWithFallback.
    destruct (fetch request); simpl; auto.
  - split; [| intros [H | H]; discriminate H].
    unfold Worker.cacheFirstWithNetworkFallback.
    destruct (cachesMatch (url request) caches); simpl;
      destruct (fetch request) as [response|e] eqn:Hfetch; simpl; auto;
      destruct (ok response) eqn:Hok; eauto.
  - split; [| intros [H | H]; discriminate H].
    unfold Worker.networkFirstWithCacheFallback.
    destruct (fetch request) as [response|e] eqn:Hfetch; simpl.
    + destruct (ok response) eqn:Hok; simpl; [eauto |].
      destruct (cachesMatch (url request) caches); auto.
    + destruct (cachesMatch (url request) caches); auto.
  - split; [| intros [H | H]; discriminate H].
    unfold Worker.cacheFirst.
    destruct (cachesMatch (url request) caches); simpl; auto.
    destruct (fetch request) as [response|e] eqn:Hfetch; simpl; auto.
    destruct (ok response) eqn:Hok; eauto.
  - unfold Worker.handleOfflineMarking. simpl. auto.
Qed.

Lemma dispatch_cases request caches :
  (exists s, fetchListener request = Normal (Some s) /\
             dispatchFetch request caches
             = (Responded (fst (handler s request caches)),
                snd (handler s request caches))) \/
  dispatchFetch request caches = (PassedThrough (fetch request), caches).
Proof.
  unfold Worker.dispatchFetch.
  destruct (fetchListener request) as [[s|]|e]; auto.
  left. exists s. split; [reflexivity |].
  destruct (Worker.handler location_origin fetch fetchUsesBody s request caches).
  reflexivity.
Qed.

Ltac strategy_facts :=
  repeat split; try assumption; try reflexivity; try discriminate; auto;
  try (right; split; [discriminate | assumption]);
  try (intros [K | K]; discriminate K).

Lemma listener_strategy request s :
  fetchListener request = Normal (Some s) ->
  origin (parseURL (url request)) = location_origin /\
  (s = HandleOfflineMarking /\ method request = "POST" \/
   s <> HandleOfflineMarking /\ method request = "GET") /\
  (startsWith (pathname (parseURL (url request))) "/api/attendance/mark" = true <->
   s = NetworkOnlyWithFallback \/ s = HandleOfflineMarking).
Proof.
  unfold Worker.fetchListener.
  destruct (String.eqb (origin (parseURL (url request))) location_origin) eqn:Horigin;
    simpl; [| discriminate].
  apply String.eqb_eq in Horigin.
  destruct (String.eqb (method request) "GET") eqn:Hget.
  - apply String.eqb_eq in Hget.
    destruct (startsWith (pathname (parseURL (url request))) "/api/attendance/mark")
      eqn:Hmark.
    + intros H. injection H as <-. strategy_facts.
    + match goal with
      | |- context [if ?b then Normal (Some CacheFirstWithNetworkFallback) else _] =>
          destruct b
      end.
      * intros H. injection H as <-. strategy_facts.
      * destruct (isNavigationRequest request) as [[]|e]; simpl; intros H;
          try discriminate H; injection H as <-; strategy_facts.
  - destruct (String.eqb (method request) "POST") eqn:Hpost; simpl; [| discriminate].
    apply String.eqb_eq in Hpost.
    destruct (startsWith (pathname (parseURL (url request))) "/api/attendance/mark")
      eqn:Hmark; [| discriminate].
    intros H. injection H as <-. strategy_facts.
Qed.

(** X14: the only thing a handled request ever writes to the cache
    storage is the ok response of the network to that very request, under
    its URL, in the current cache; this happens only for GET requests of
    the own origin outside the submission endpoint.  A response that is
    not ok, a synthesized response and a POST are never stored. *)
Theorem only_ok_responses_are_stored request caches :
  snd (dispatchFetch request caches) = caches \/
  exists response,
    fetch request = Normal response /\
    ok response = true /\
    method request = "GET" /\
    origin (parseURL (url request)) = location_origin /\
    startsWith (pathname (parseURL (url request))) "/api/attendance/mark" = false /\
    snd (dispatchFetch request caches)
    = cachePut CACHE_NAME (url request) response caches.
Proof.
  destruct (dispatch_cases request caches) as [(s & Hs & ->) | ->]; [| left; reflexivity].
  simpl.
  destruct (handler_writes s request caches) as [[Hsame | (response & Hf & Hok & Hput)] Hmark];
    [left; exact Hsame |].
  destruct (listener_strategy request s Hs) as (Horigin & Hmethod & Hpath).
  destruct (startsWith (pathname (parseURL (url request))) "/api/attendance/mark")
    eqn:Hstarts.
  - left. apply Hmark, Hpath. reflexivity.
  - destruct Hmethod as [[-> _] | [_ Hget]].
    + left. apply Hmark. auto.
    + right. exists response. auto 7.
Qed.

(** X15: a request touches no entry but its own.  For every URL other
    than that of the request, [caches.match] gives after the request what
    it gave before; and an entry that could be matched before can still be
    matched afterwards: the strategies never evict. *)
Theorem requests_never_evict request caches key :
  (key <> url request ->
   cachesMatch key (snd (dispatchFetch request caches)) = cachesMatch key caches) /\
  (is_Some (cachesMatch key caches) ->
   is_Some (cachesMatch key (snd (dispatchFetch request caches)))).
Proof.
  assert (Hw : writes request caches (snd (dispatchFetch request caches))).
  { destruct (dispatch_cases request caches) as [(s & _ & ->) | ->];
      [apply handler_writes | left; reflexivity]. }
  destruct Hw as [-> | (response & _ & _ & ->)]; [auto |].
  split.
  - intros Hne. apply cachesMatch_cachePut_other, Hne.
  - intros Hsome. destruct (decide (key = url request)) as [-> | Hne].
    + apply cachesMatch_cachePut_same, Hsome.
    + rewrite cachesMatch_cachePut_other by assumption. exact Hsome.
Qed.

(** ** Answering without the network *)

(** The offline page can be matched. *)
Definition offlinePageStored (caches : CacheStorage) : Prop :=
  is_Some (cachesMatch (resolve "/offline") caches).

Lemma handler_answers s request caches :
  s <> HandleOfflineMarking ->
  offlinePageStored caches ->
  exists response, fst (handler s request caches) = Normal (Some response).
Proof.
  intros Hs [page Hpage]. destruct s; simpl; try contradiction.
  - unfold Worker.networkOnlyWithFallback. destruct (fetch request); simpl; eauto.
  - unfold Worker.cacheFirstWithNetworkFallback.
    destruct (cachesMatch (url request) caches); simpl; eauto.
    destruct (fetch request); simpl; eauto.
  - unfold Worker.networkFirstWithCacheFallback.
    destruct (fetch request) as [response|e]; simpl.
    + destruct (ok response); simpl; eauto.
      destruct (cachesMatch (url request) caches); simpl; eauto.
      fold (resolve "/offline"). rewrite Hpage. eauto.
    + destruct (cachesMatch (url request) caches); simpl; eauto.
      fold (resolve "/offline"). rewrite Hpage. eauto.
  - unfold Worker.cacheFirst.
    destruct (cachesMatch (url request) caches); simpl; eauto.
    destruct (fetch request); simpl; eauto.
Qed.

(** X16: as long as the offline page can be matched, every GET request
    the worker answers is answered with a response: the promise given to
    [respondWith] never rejects and never resolves to [undefined],
    whatever the network does; and the offline page can still be matched
    afterwards. *)
Theorem get_requests_are_answered request caches :
  method request = "GET" ->
  offlinePageStored caches ->
  ((exists response,
      fst (dispatchFetch request caches) = Responded (Normal (Some response)) /\
      received (fst (dispatchFetch request caches)) = Normal response) \/
   fst (dispatchFetch request caches) = PassedThrough (fetch request)) /\
  offlinePageStored (snd (dispatchFetch request caches)).
Proof.
  intros Hget Hpage. split.
  - destruct (dispatch_cases request caches) as [(s & Hs & ->) | ->];
      [| right; reflexivity].
    left. simpl.
    assert (Hnot : s <> HandleOfflineMarking).
    { destruct (listener_strategy request s Hs) as (_ & [[_ Hpost] | [Hne _]] & _);
        [rewrite Hget in Hpost; discriminate Hpost | exact Hne]. }
    destruct (handler_answers s request caches Hnot Hpage) as [response ->].
    exists response. split; reflexivity.
  - unfold offlinePageStored in *.
    assert (Hw : writes request caches (snd (dispatchFetch request caches))).
    { destruct (dispatch_cases request caches) as [(s & _ & ->) | ->];
        [apply handler_writes | left; reflexivity]. }
    destruct Hw as [-> | (response & _ & _ & ->)]; [exact Hpage |].
    destruct (decide (resolve "/offline" = url request)) as [Heq | Hne].
    + rewrite Heq in *. apply cachesMatch_cachePut_same, Hpage.
    + rewrite cachesMatch_cachePut_other by assumption. exact Hpage.
Qed.

(** ** install *)

(** Every essential file is fetched with an ok response. *)
Definition essentialsServed (files : list string) : Prop :=
  Forall (fun file => exists response,
            fetch (requestFor location_origin file) = Normal response /\
            ok response = true) files.

Lemma fetchAll_served files :
  (exists entries, fetchAll files = Normal entries) <-> essentialsServed files.
Proof.
  unfold essentialsServed. induction files as [|file rest IH]; simpl.
  - split; [constructor | eauto].
  - split.
    + intros [entries H].
      destruct (fetch (requestFor location_origin file)) as [response|e] eqn:Hfetch;
        [| discriminate H].
      simpl in H. destruct (ok response) eqn:Hok; [| discriminate H].
      destruct (fetchAll rest) as [responses|e]; [| discriminate H].
      constructor; [eauto | apply IH; eauto].
    + intros H. inversion H as [|? ? (response & Hfetch & Hok) Hrest]; subst.
      apply IH in Hrest as [responses Hresponses].
      rewrite Hfetch. simpl. rewrite Hok, Hresponses. simpl. eauto.
Qed.

(** X17: the installation succeeds exactly when every essential file is
    fetched with an ok response.  Whether it succeeds or not, the offline
    page can be matched afterwards; and when it fails, no other entry of
    the cache storage has changed: no essential file is left behind. *)
Theorem install_outcomes caches :
  (fst (install caches) = Normal tt <-> essentialsServed ESSENTIAL_FILES) /\
  offlinePageStored (snd (install caches)) /\
  (fst (install caches) <> Normal tt ->
   forall key, key <> resolve "/offline" ->
     cachesMatch key (snd (install caches)) = cachesMatch key caches).
Proof.
  unfold Worker.install, Worker.addAll, offlinePageStored.
  pose proof (fetchAll_served ESSENTIAL_FILES) as Hserved.
  destruct (fetchAll ESSENTIAL_FILES) as [entries|e]; simpl.
  - split; [| split].
    + split; [intros _; apply Hserved; eauto | reflexivity].
    + apply cachePut_matched.
    + intros H. contradiction.
  - split; [| split].
    + split; [discriminate |].
      intros H. apply Hserved in H as [entries H]. discriminate H.
    + apply cachePut_matched.
    + intros _ key Hkey.
      rewrite cachesMatch_cachePut_other, cachesMatch_cachesOpen by assumption.
      reflexivity.
Qed.

(** ** activate *)

Lemma cacheOf_filter_current name (caches : CacheStorage) :
  current name = true ->
  cacheOf name (List.filter (fun entry => current (fst entry)) caches)
  = cacheOf name caches.
Proof.
  intros Hcur. unfold cacheOf.
  induction caches as [|[n cache] rest IH]; simpl; [reflexivity |].
  destruct (current n) eqn:Hn; simpl.
  - destruct (String.eqb n name); [reflexivity | exact IH].
  - destruct (String.eqb n name) eqn:Hname; [| exact IH].
    apply String.eqb_eq in Hname. congruence.
Qed.

Lemma filter_idempotent {A} (keep : A -> bool) (l : list A) :
  List.filter keep (List.filter keep l) = List.filter keep l.
Proof.
  induction l as [|x rest IH]; simpl; [reflexivity |].
  destruct (keep x) eqn:Hx; simpl; rewrite ?Hx, IH; reflexivity.
Qed.

Lemma filter_all {A} (keep : A -> bool) (l : list A) :
  List.Forall (fun x => keep x = true) l -> List.filter keep l = l.
Proof.
  induction 1 as [|x rest Hx _ IH]; simpl; [reflexivity |].
  rewrite Hx, IH. reflexivity.
Qed.

(** X18: activation deletes by name only.  Every cache it leaves bears a
    current name; the two current caches keep their content, dynamic
    entries included; activating twice is activating once; and when every
    cache already bears a current name (no version bump), nothing
    changes. *)
Theorem activation_deletes_by_name_only (caches : CacheStorage) :
  List.Forall (fun name => current name = true) (cachesKeys (activate caches)) /\
  (forall name, current name = true ->
                cacheOf name (activate caches) = cacheOf name caches) /\
  activate (activate caches) = activate caches /\
  (List.Forall (fun name => current name = true) (cachesKeys caches) ->
   activate caches = caches).
Proof.
  rewrite !activate_filter. split; [| split; [| split]].
  - unfold cachesKeys. apply List.Forall_forall. intros name Hin.
    apply List.in_map_iff in Hin as ([n cache] & <- & Hin).
    apply List.filter_In in Hin as [_ Hcur]. exact Hcur.
  - intros name Hcur. apply cacheOf_filter_current, Hcur.
  - apply filter_idempotent.
  - intros Hall. apply filter_all.
    unfold cachesKeys in Hall. rewrite List.Forall_map in Hall. exact Hall.
Qed.

End RouterProperties.

(** * The service worker over time: one network now, another later *)
Section RouterOverTime.

Import Worker.

Variable location_origin : string.
Variable getOfflineHTML : string.

Local Abbreviation resolve := (Worker.resolve location_origin).
Local Abbreviation offlinePage := (Worker.offlinePage getOfflineHTML).
Local Abbreviation networkFirst := (Worker.networkFirstWithCacheFallback location_origin).

(** The attempt of a strategy at the network fails: the fetch rejects or
    the response is not ok. *)
Definition attemptFails (net : Request -> Completion Response) (request : Request)
  : bool :=
  match net request with
  | Throw _ => true
  | Normal response => negb (ok response)
  end.

(** X19: Network-First remembers.  When the current cache is the first
    one listed, a navigation answered by the network with an ok response
    is stored, and the same navigation, once the network fails or answers
    with a response that is not ok, is answered with that stored response
    and changes nothing. *)
Theorem navigation_is_replayed (now later : Request -> Completion Response)
    request (caches : CacheStorage) response :
  head (cachesKeys caches) = Some CACHE_NAME ->
  now request = Normal response ->
  ok response = true ->
  attemptFails later request = true ->
  let caches' := snd (networkFirst now request caches) in
  networkFirst now request caches = (Normal (Some response), caches') /\
  networkFirst later request caches' = (Normal (Some response), caches').
Proof.
  intros Hhead Hnow Hok Hlater.
  assert (Hfirst : networkFirst now request caches
                   = (Normal (Some response),
                      cachePut CACHE_NAME (url request) response caches)).
  { unfold Worker.networkFirstWithCacheFallback. rewrite Hnow. simpl.
    rewrite Hok. reflexivity. }
  rewrite Hfirst. simpl. split; [reflexivity |].
  destruct (cachesMatch_cachePut_head CACHE_NAME (url request) response caches Hhead)
    as [Hmatch _].
  unfold Worker.networkFirstWithCacheFallback, attemptFails in *.
  destruct (later request) as [answer|e]; simpl.
  - apply negb_true_iff in Hlater. rewrite Hlater. simpl. rewrite Hmatch. reflexivity.
  - rewrite Hmatch. reflexivity.
Qed.

(** X20: the API strategy answers from the cache first and refreshes
    behind.  A request with a cache entry is answered with that entry
    whatever the network would answer now; when the current cache is the
    first one listed and the network answers with an ok response, it is
    the next answer that carries it; when the attempt at the network
    fails, the cache storage is left as it is. *)
Theorem api_answers_lag_one_refresh (now later : Request -> Completion Response)
    request (caches : CacheStorage) cached :
  cachesMatch (url request) caches = Some cached ->
  fst (cacheFirstWithNetworkFallback now request caches) = Normal (Some cached) /\
  (forall fresh,
     head (cachesKeys caches) = Some CACHE_NAME ->
     now request = Normal fresh ->
     ok fresh = true ->
     fst (cacheFirstWithNetworkFallback later request
            (snd (cacheFirstWithNetworkFallback now request caches)))
     = Normal (Some fresh)) /\
  (attemptFails now request = true ->
   snd (cacheFirstWithNetworkFallback now request caches) = caches).
Proof.
  intros Hhit. unfold cacheFirstWithNetworkFallback at 1 3 4. rewrite Hhit. simpl.
  split; [reflexivity |]. split.
  - intros fresh Hhead Hnow Hok. rewrite Hnow, Hok.
    destruct (cachesMatch_cachePut_head CACHE_NAME (url request) fresh caches Hhead)
      as [Hmatch _].
    unfold cacheFirstWithNetworkFallback. rewrite Hmatch. reflexivity.
  - unfold attemptFails. destruct (now request) as [answer|e]; [| reflexivity].
    intros H. apply negb_true_iff in H. rewrite H. reflexivity.
Qed.

(** The cache storage a first installation and its activation leave. *)
Lemma fresh_generation (fetch : Request -> Completion Response)
    (old caches1 : CacheStorage) :
  CACHE_NAME ∉ cachesKeys old ->
  OFFLINE_CACHE ∉ cachesKeys old ->
  Worker.install location_origin getOfflineHTML fetch old = (Normal tt, caches1) ->
  exists entries,
    Worker.fetchAll location_origin fetch ESSENTIAL_FILES = Normal entries /\
    activate caches1
    = [ (CACHE_NAME, stored entries);
        (OFFLINE_CACHE, {[ resolve "/offline" := offlinePage ]}) ].
Proof.
  intros Hc Ho Hinstall.
  unfold Worker.install, Worker.addAll in Hinstall.
  rewrite (cachesOpen_absent CACHE_NAME old Hc) in Hinstall.
  destruct (Worker.fetchAll location_origin fetch ESSENTIAL_FILES) as [entries|e];
    [| discriminate Hinstall].
  injection Hinstall as <-. exists entries. split; [reflexivity |].
  rewrite (putIn_all CACHE_NAME entries old ∅ [] Hc). fold (stored entries).
  assert (Ho' : OFFLINE_CACHE ∉ cachesKeys (old ++ [(CACHE_NAME, stored entries)])%list).
  { unfold cachesKeys. rewrite map_app. apply not_elem_of_app. split; [exact Ho |].
    simpl. apply not_elem_of_cons. split; [discriminate | apply not_elem_of_nil]. }
  unfold cachePut. rewrite (cachesOpen_absent OFFLINE_CACHE _ Ho').
  rewrite (putIn_app_absent OFFLINE_CACHE _ _ _ _ Ho'), putIn_head, insert_empty.
  rewrite activate_filter, !List.filter_app, (filter_current_old old Hc Ho).
  reflexivity.
Qed.

(** X21: after a first installation and its activation, a navigation
    whose attempt at the network fails is still answered: with the copy
    fetched at installation when its URL is one of the essential files,
    and with the offline page otherwise (the URL of the offline page not
    being one of the essential files). *)
Theorem installed_worker_serves_navigation_offline
    (fetch later : Request -> Completion Response)
    (old caches1 : CacheStorage) request :
  CACHE_NAME ∉ cachesKeys old ->
  OFFLINE_CACHE ∉ cachesKeys old ->
  Worker.install location_origin getOfflineHTML fetch old = (Normal tt, caches1) ->
  resolve "/offline" ∉ map resolve ESSENTIAL_FILES ->
  attemptFails later request = true ->
  exists entries,
    Worker.fetchAll location_origin fetch ESSENTIAL_FILES = Normal entries /\
    networkFirst later request (activate caches1)
    = (Normal (Some (default offlinePage (stored entries !! url request))),
       activate caches1) /\
    (url request ∉ map resolve ESSENTIAL_FILES ->
     stored entries !! url request = None).
Proof.
  intros Hc Ho Hinstall Hoffline Hlater.
  destruct (fresh_generation fetch old caches1 Hc Ho Hinstall) as (entries & Hfetch & ->).
  exists entries. split; [exact Hfetch |].
  assert (Hdom : dom (stored entries) = list_to_set (map resolve ESSENTIAL_FILES)).
  { unfold stored.
    rewrite dom_foldl_insert, (fetchAll_keys _ _ _ _ Hfetch). set_solver. }
  assert (Hnone : forall key, key ∉ map resolve ESSENTIAL_FILES ->
                              stored entries !! key = None).
  { intros key Hkey. apply not_elem_of_dom. rewrite Hdom.
    rewrite elem_of_list_to_set. exact Hkey. }
  split; [| apply Hnone].
  assert (Hattempt :
            (networkResponse ← later request;
             if ok networkResponse then Normal networkResponse
             else Throw (Error "Network response not ok"))
            = Throw (match later request with
                     | Throw e => e
                     | Normal _ => Error "Network response not ok"
                     end)).
  { unfold attemptFails in Hlater. destruct (later request) as [answer|e]; simpl.
    - apply negb_true_iff in Hlater. rewrite Hlater. reflexivity.
    - reflexivity. }
  unfold Worker.networkFirstWithCacheFallback. rewrite Hattempt.
  cbn [cachesMatch]. fold (resolve "/offline").
  rewrite (Hnone _ Hoffline), lookup_singleton_eq.
  destruct (stored entries !! url request) as [copy|]; [reflexivity |].
  destruct (decide (resolve "/offline" = url request)) as [<- | Hne].
  - rewrite lookup_singleton_eq. reflexivity.
  - rewrite lookup_singleton_ne by exact Hne. reflexivity.
Qed.

End RouterOverTime.

(** * The site again: requests answered without the network *)
Section RouterExamples.

Import Worker.

(** The cache storage after an installation that failed for want of a
    network. *)
Definition installedOffline : CacheStorage :=
  snd (install site offlineMarkup unreachable []).

Definition schedulePage : Request :=
  mkRequest (site ++ "/horario") "GET" "navigate" (Some "text/html") NoBody false.

Definition todayApi : Request :=
  mkRequest (site ++ "/api/attendance/today") "GET" "cors" (Some "*/*") NoBody false.

Definition yesterdayRecord : Response :=
  mkResponse 200 [("Content-Type", "application/json")] (JsonBody (JObject [])).

Definition withRecord : CacheStorage :=
  [ (CACHE_NAME, {[ site ++ "/api/attendance/today" := yesterdayRecord ]});
    (OFFLINE_CACHE, ∅) ].

Lemma get_requests_are_answered_witness :
  (exists response,
     fst (dispatchFetch site unreachable true schedulePage installedOffline)
     = Responded (Normal (Some response)) /\
     received (fst (dispatchFetch site unreachable true schedulePage installedOffline))
     = Normal response) \/
  fst (dispatchFetch site unreachable true schedulePage installedOffline)
  = PassedThrough (unreachable schedulePage).
Proof.
  refine (proj1 (get_requests_are_answered site unreachable true schedulePage
                   installedOffline eq_refl _)).
  exists (offlinePage offlineMarkup). vm_compute. reflexivity.
Defined.

Lemma navigation_is_replayed_witness :
  networkFirstWithCacheFallback site unreachable pageRequest
    (snd (networkFirstWithCacheFallback site serving pageRequest withStyle))
  = (Normal (Some (pageOf pageRequest)),
     snd (networkFirstWithCacheFallback site serving pageRequest withStyle)).
Proof.
  exact (proj2 (navigation_is_replayed site serving unreachable pageRequest withStyle
                  (pageOf pageRequest) eq_refl eq_refl eq_refl eq_refl)).
Defined.

Lemma api_answers_lag_one_refresh_witness :
  fst (cacheFirstWithNetworkFallback serving todayApi withRecord)
  = Normal (Some yesterdayRecord) /\
  fst (cacheFirstWithNetworkFallback unreachable todayApi
         (snd (cacheFirstWithNetworkFallback serving todayApi withRecord)))
  = Normal (Some (pageOf todayApi)).
Proof.
  destruct (api_answers_lag_one_refresh serving unreachable todayApi withRecord
              yesterdayRecord eq_refl) as (Hstale & Hfresh & _).
  split; [exact Hstale |].
  exact (Hfresh (pageOf todayApi) eq_refl eq_refl eq_refl).
Defined.

Lemma installed_worker_serves_navigation_offline_witness :
  exists entries,
    fetchAll site serving ESSENTIAL_FILES = Normal entries /\
    networkFirstWithCacheFallback site unreachable schedulePage
      (activate (snd (install site offlineMarkup serving previousGeneration)))
    = (Normal (Some (default (offlinePage offlineMarkup)
                       (stored entries !! url schedulePage))),
       activate (snd (install site offlineMarkup serving previousGeneration))).
Proof.
  destruct (installed_worker_serves_navigation_offline site offlineMarkup
              serving unreachable previousGeneration
              (snd (install site offlineMarkup serving previousGeneration))
              schedulePage) as (entries & Hfetch & Hanswer & _).
  - refine (bool_decide_unpack _ _). vm_compute. exact I.
  - refine (bool_decide_unpack _ _). vm_compute. exact I.
  - reflexivity.
  - refine (bool_decide_unpack _ _). vm_compute. exact I.
  - reflexivity.
  - exists entries. split; assumption.
Defined.

End RouterExamples.
